(** * Wardrobe outfit maker: rule engine, outfit assembler, substitution dialog

    A shallow embedding of [src/outfit_maker.py]: the class [OutfitGenerator]
    (compatibility predicates and the rejection-sampling search
    [generate_outfit]) and the two methods of [OutfitMakerApp] that drive it
    ([generate_outfit] and [open_change_item_dialog] with its [select_item]).

    Modelling choices.
    - A clothing item is the dictionary built by [WardrobeDatabase.get_all_items];
      it always carries the six keys, so it is a record, it is truthy, and the
      guards ['formality' in item], ['pattern' in item] hold by typing.
    - Strings are [string]; [str.lower] is modelled on ASCII letters.
    - The class-level dictionaries are [gmap]s, [set()] is a [gset].
    - [random] is an oracle: an infinite sequence of naturals consumed one draw
      per call, threaded through the code by a small state monad.  Theorems
      quantify over every oracle, that is over every outcome of the draws. *)

From Stdlib Require Import Ascii.
From stdpp Require Import gmap strings list fin_maps.

Local Open Scope string_scope.
Local Open Scope list_scope.
Local Open Scope Z_scope.

(** ** Strings *)

(** [str.lower] on one ASCII character: 'A'..'Z' are shifted by 32. *)
Definition lower_ascii (c : ascii) : ascii :=
  let n := N_of_ascii c in
  if ((65 <=? n) && (n <=? 90))%N then ascii_of_N (n + 32) else c.

Fixpoint lower (s : string) : string :=
  match s with
  | EmptyString => EmptyString
  | String c s' => String (lower_ascii c) (lower s')
  end.

(** ** Data model *)

(** One row of [clothing_items] as returned by [get_all_items]. *)
Record Item := mkItem {
  item_id : Z;
  category : string;
  color : string;
  pattern : string;
  formality : string;
  image_path : string;
}.

Global Instance Item_eq_dec : EqDecision Item.
Proof. solve_decision. Defined.

(** The dictionary [outfit] created at the top of every attempt. *)
Record Outfit := mkOutfit {
  top : option Item;
  bottom : option Item;
  dress : option Item;
  outerwear : option Item;
  accessories : list Item;
  shoes : option Item;
}.

Definition empty_outfit : Outfit :=
  {| top := None; bottom := None; dress := None; outerwear := None;
     accessories := []; shoes := None |}.

Definition set_top (v : option Item) (o : Outfit) : Outfit :=
  {| top := v; bottom := bottom o; dress := dress o; outerwear := outerwear o;
     accessories := accessories o; shoes := shoes o |}.
Definition set_bottom (v : option Item) (o : Outfit) : Outfit :=
  {| top := top o; bottom := v; dress := dress o; outerwear := outerwear o;
     accessories := accessories o; shoes := shoes o |}.
Definition set_dress (v : option Item) (o : Outfit) : Outfit :=
  {| top := top o; bottom := bottom o; dress := v; outerwear := outerwear o;
     accessories := accessories o; shoes := shoes o |}.
Definition set_outerwear (v : option Item) (o : Outfit) : Outfit :=
  {| top := top o; bottom := bottom o; dress := dress o; outerwear := v;
     accessories := accessories o; shoes := shoes o |}.
Definition set_accessories (v : list Item) (o : Outfit) : Outfit :=
  {| top := top o; bottom := bottom o; dress := dress o; outerwear := outerwear o;
     accessories := v; shoes := shoes o |}.
Definition set_shoes (v : option Item) (o : Outfit) : Outfit :=
  {| top := top o; bottom := bottom o; dress := dress o; outerwear := outerwear o;
     accessories := accessories o; shoes := v |}.

(** ** The random oracle *)

(** The state of [random]: the draws still to come. *)
Definition Rng := nat → nat.

Definition M (A : Type) : Type := Rng → A * Rng.

Definition ret {A} (a : A) : M A := λ r, (a, r).
Definition bind {A B} (m : M A) (k : A → M B) : M B :=
  λ r, let '(a, r') := m r in k a r'.

Notation "x <- m ;; k" := (bind m (λ x, k))
  (at level 100, m at next level, right associativity).

(** One draw. *)
Definition next_draw : M nat := λ r, (r 0%nat, λ n, r (S n)).

(** [self._get_random_element(arr)]: [None] on the empty list without touching
    [random], otherwise [random.choice(arr)]. *)
Definition _get_random_element {A} (arr : list A) : M (option A) :=
  match arr with
  | [] => ret None
  | _ :: _ => n <- next_draw ;; ret (arr !! (n `mod` length arr)%nat)
  end.

(** [random.random() < 0.3]: only the outcome of the comparison is used, so
    the float itself is not modelled; three draws in ten fall below. *)
Definition random_below_03 : M bool :=
  n <- next_draw ;; ret (bool_decide (n `mod` 10 < 3)%nat).

(** [random.randint(0, hi)]: an integer of the closed interval. *)
Definition randint0 (hi : nat) : M nat :=
  n <- next_draw ;; ret (n `mod` (S hi))%nat.

(** ** OutfitGenerator *)

Module OutfitGenerator.

(** *** Class-level tables *)

Definition formality_levels : gmap string Z :=
  list_to_map [("casual", 1); ("smart casual", 2); ("semi-formal", 3); ("formal", 4)].

Definition occasion_formality_map : gmap string Z :=
  list_to_map [("Any", 0); ("Casual Day Out", 1); ("Work/Office", 2);
               ("Date Night", 2); ("Party", 3); ("Formal Event", 4)].

Definition clashing_colors : gmap string (list string) :=
  list_to_map [
    ("red", ["orange"; "pink"; "green"]);
    ("orange", ["red"; "purple"; "blue"]);
    ("yellow", ["purple"; "brown"]);
    ("green", ["red"; "purple"; "brown"]);
    ("blue", ["orange"]);
    ("purple", ["yellow"; "green"; "orange"]);
    ("pink", ["red"; "brown"]);
    ("brown", ["yellow"; "green"; "pink"]);
    ("black", []); ("white", []); ("grey", []); ("beige", []); ("navy", [])].

Definition neutral_colors : list string :=
  ["black"; "white"; "grey"; "beige"; "navy"].

(** *** Compatibility predicates *)

(** [c1 in table and c2 in table[c1]]. *)
Definition listed_clash (table : gmap string (list string)) (c1 c2 : string) : bool :=
  match table !! c1 with
  | Some l => bool_decide (c2 ∈ l)
  | None => false
  end.

(** The body of [_do_colors_clash], with the two class attributes it reads
    ([self.neutral_colors], [self.clashing_colors]) as arguments. *)
Definition do_colors_clash_with (neutral : list string)
    (table : gmap string (list string)) (color1 color2 : string) : bool :=
  if bool_decide (color1 = "") || bool_decide (color2 = "") then false
  else
    let color1 := lower color1 in
    let color2 := lower color2 in
    if bool_decide (color1 ∈ neutral) || bool_decide (color2 ∈ neutral) then false
    else if listed_clash table color1 color2 then true
    else if listed_clash table color2 color1 then true
    else false.

Definition _do_colors_clash : string → string → bool :=
  do_colors_clash_with neutral_colors clashing_colors.

(** [self.formality_levels.get(item['formality'].lower(), 0)]. *)
Definition formality_rank (item : Item) : Z :=
  default 0 (formality_levels !! lower (formality item)).

(** [_do_formalities_match(item1, item2, tolerance=1)]; an absent item ([None])
    matches everything. *)
Definition _do_formalities_match (item1 item2 : option Item) (tolerance : Z) : bool :=
  match item1, item2 with
  | Some i1, Some i2 => Z.abs (formality_rank i1 - formality_rank i2) <=? tolerance
  | _, _ => true
  end.

Definition _is_item_suitable_for_occasion (item : Item)
    (occasion_formality_level : Z) : bool :=
  if occasion_formality_level =? 0 then true
  else Z.abs (formality_rank item - occasion_formality_level) <=? 1.

(** The counting loop of [_do_patterns_match]; [None] entries are skipped. *)
Fixpoint patterned_items_count (selected_items : list (option Item)) : nat :=
  match selected_items with
  | [] => 0%nat
  | Some item :: rest =>
      if bool_decide (lower (pattern item) ≠ "solid")
      then S (patterned_items_count rest)
      else patterned_items_count rest
  | None :: rest => patterned_items_count rest
  end.

Definition _do_patterns_match (selected_items : list (option Item)) : bool :=
  bool_decide (patterned_items_count selected_items ≤ 1)%nat.

Global Arguments _do_colors_clash : simpl never.
Global Arguments _do_formalities_match : simpl never.
Global Arguments _is_item_suitable_for_occasion : simpl never.
Global Arguments _do_patterns_match : simpl never.

(** *** The catalog view built by [__init__] *)

Definition init_categories : gmap string (list Item) :=
  list_to_map [("Top", []); ("Bottom", []); ("Dress", []); ("Outerwear", []);
               ("Accessory", []); ("Shoes", [])].

(** [if item['category'] in self.categories: self.categories[...].append(item)]. *)
Definition add_to_category (cats : gmap string (list Item)) (item : Item)
    : gmap string (list Item) :=
  match cats !! category item with
  | Some l => <[category item := l ++ [item]]> cats
  | None => cats
  end.

Definition categories (items : list Item) : gmap string (list Item) :=
  foldl add_to_category init_categories items.

(** *** One attempt of [generate_outfit] *)

(** How one pass through the body of the [while] loop ends. *)
Inductive Step :=
  | Continue
  | ReturnNone
  | ReturnOutfit (outfit : Outfit).

(** [outfit['dress'] if outfit['dress'] else outfit['top']]. *)
Definition base_item (outfit : Outfit) : option Item :=
  match dress outfit with
  | Some d => Some d
  | None => top outfit
  end.

(** [outfit['dress'] if outfit['dress'] else (outfit['bottom'] or outfit['top'])]. *)
Definition base_item_for_shoes (outfit : Outfit) : option Item :=
  match dress outfit with
  | Some d => Some d
  | None => match bottom outfit with
            | Some b => Some b
            | None => top outfit
            end
  end.

(** The acceptance test shared by outerwear, shoes and accessories:
    [base and _do_formalities_match(base, cand) and not _do_colors_clash(...)]. *)
Definition accepts (base : option Item) (candidate : Item) : bool :=
  match base with
  | Some b =>
      _do_formalities_match (Some b) (Some candidate) 1
      && negb (_do_colors_clash (color b) (color candidate))
  | None => false
  end.

Section Attempt.
Variable cats : gmap string (list Item).
Variable occasion_formal_level : Z.

(** [[item for item in self.categories[name] if self._is_item_suitable_for_occasion(...)]]. *)
Definition available (name : string) : list Item :=
  filter (λ item, _is_item_suitable_for_occasion item occasion_formal_level = true)
         (cats !!! name).

(** Step 1: a dress, or a top and a bottom.  [None] stands for [continue];
    otherwise the outfit and [selected_items_for_rules] so far. *)
Definition select_torso : M (option (Outfit * list Item)) :=
  let outfit := empty_outfit in
  let selected : list Item := [] in
  roll <- (match available "Dress", available "Top" with
           | [], _ => ret false
           | _ :: _, [] => ret true
           | _ :: _, _ :: _ => random_below_03
           end) ;;
  st <- (if roll : bool then
           d <- _get_random_element (available "Dress") ;;
           match d with
           | Some d' => ret (set_dress d outfit, selected ++ [d'], true)
           | None => ret (set_dress d outfit, selected, false)
           end
         else ret (outfit, selected, false)) ;;
  let '(outfit, selected, use_dress) := st in
  if negb use_dress then
    t <- _get_random_element (available "Top") ;;
    b <- _get_random_element (available "Bottom") ;;
    let outfit := set_bottom b (set_top t outfit) in
    match t, b with
    | Some t', Some b' =>
        if negb (_do_formalities_match t b 1)
           || _do_colors_clash (color t') (color b')
        then ret None
        else ret (Some (outfit, selected ++ [t'; b']))
    | _, _ =>
        match dress outfit with
        | None => ret None
        | Some _ => ret (Some (outfit, selected))
        end
    end
  else ret (Some (set_bottom None (set_top None outfit), selected)).

(** Step 2.  [random.choice] of a non-empty pool is never [None]; the
    [None] case of the match is there for totality only. *)
Definition select_outerwear (st : Outfit * list Item) : M (Outfit * list Item) :=
  let '(outfit, selected) := st in
  match available "Outerwear" with
  | [] => ret st
  | _ :: _ =>
      potential_outerwear <- _get_random_element (available "Outerwear") ;;
      match potential_outerwear with
      | Some p =>
          if accepts (base_item outfit) p
          then ret (set_outerwear (Some p) outfit, selected ++ [p])
          else ret st
      | None => ret st
      end
  end.

(** Step 3. *)
Definition select_shoes (st : Outfit * list Item) : M (Outfit * list Item) :=
  let '(outfit, selected) := st in
  match available "Shoes" with
  | [] => ret st
  | _ :: _ =>
      potential_shoes <- _get_random_element (available "Shoes") ;;
      match potential_shoes with
      | Some p =>
          if accepts (base_item_for_shoes outfit) p
          then ret (set_shoes (Some p) outfit, selected ++ [p])
          else ret st
      | None => ret st
      end
  end.

(** Step 4, the body of [for _ in range(num_accessories)], run [n] times. *)
Fixpoint accessories_loop (n : nat) (st : Outfit * list Item * gset Z)
    : M (Outfit * list Item * gset Z) :=
  match n with
  | O => ret st
  | S n' =>
      let '(outfit, selected, selected_accessory_ids) := st in
      accessory <- _get_random_element (available "Accessory") ;;
      accessories_loop n'
        match accessory with
        | Some a =>
            if bool_decide (item_id a ∉ selected_accessory_ids)
               && accepts (base_item outfit) a
            then (set_accessories (accessories outfit ++ [a]) outfit,
                  selected ++ [a],
                  selected_accessory_ids ∪ {[item_id a]})
            else st
        | None => st
        end
  end.

Definition select_accessories (st : Outfit * list Item) : M (Outfit * list Item) :=
  let '(outfit, selected) := st in
  match available "Accessory" with
  | [] => ret st
  | _ :: _ =>
      num_accessories <- randint0 (length (available "Accessory") `min` 3) ;;
      r <- accessories_loop num_accessories (outfit, selected, ∅) ;;
      ret (r.1.1, r.1.2)
  end.

(** The body of the [while] loop. *)
Definition attempt : M Step :=
  torso <- select_torso ;;
  match torso with
  | None => ret Continue
  | Some (outfit, selected) =>
      match selected with
      | [] => ret ReturnNone
      | _ :: _ =>
          st <- select_outerwear (outfit, selected) ;;
          st <- select_shoes st ;;
          st <- select_accessories st ;;
          if _do_patterns_match (Some <$> st.2)
          then ret (ReturnOutfit st.1)
          else ret Continue
      end
  end.

(** [while attempts < max_attempts], by recursion on the attempts left.  The
    second component of the result is the value of [attempts] on exit. *)
Fixpoint attempts_loop (remaining attempts : nat) : M (option Outfit * nat) :=
  match remaining with
  | O => ret (None, attempts)
  | S remaining' =>
      let attempts := S attempts in
      step <- attempt ;;
      match step with
      | Continue => attempts_loop remaining' attempts
      | ReturnNone => ret (None, attempts)
      | ReturnOutfit outfit => ret (Some outfit, attempts)
      end
  end.
End Attempt.

Definition max_attempts : nat := 1000.

(** [OutfitGenerator(items).generate_outfit(occasion_type)], instrumented with
    the number of attempts spent. *)
Definition generate_outfit (items : list Item) (occasion_type : string)
    : M (option Outfit * nat) :=
  let occasion_formal_level := default 0 (occasion_formality_map !! occasion_type) in
  attempts_loop (categories items) occasion_formal_level max_attempts 0.

End OutfitGenerator.

(** ** OutfitMakerApp *)

Module OutfitMakerApp.
Import OutfitGenerator.

(** The part of the application state the two handlers read and write:
    [self.clothing_items], the occasion combobox, [self.generated_outfit].
    The outfit is the dictionary as [generate_outfit] builds it and
    [select_item] keeps it, with all six keys; the dictionary that
    [load_selected_outfit] assigns, which lacks the keys of empty slots, is
    modelled in [Persistence] below. *)
Record App := mkApp {
  clothing_items : list Item;
  occasion_var : string;
  generated_outfit : option Outfit;
}.

(** [clear_outfit_display] ends in [self.generated_outfit = None]. *)
Definition clear_outfit_display (app : App) : App :=
  {| clothing_items := clothing_items app; occasion_var := occasion_var app;
     generated_outfit := None |}.

Definition set_generated_outfit (outfit : Outfit) (app : App) : App :=
  {| clothing_items := clothing_items app; occasion_var := occasion_var app;
     generated_outfit := Some outfit |}.

(** The handler of "Suggest an Outfit!".  The second component counts the
    attempts of the search that were spent ([0] when the generator is never
    built). *)
Definition generate_outfit (app : App) : M (App * nat) :=
  match clothing_items app with
  | [] => ret (clear_outfit_display app, 0%nat)
  | _ :: _ =>
      r <- OutfitGenerator.generate_outfit (clothing_items app) (occasion_var app) ;;
      match r.1 with
      | Some outfit => ret (set_generated_outfit outfit app, r.2)
      | None => ret (clear_outfit_display app, r.2)
      end
  end.

(** The six values of [item_type_to_change]: the keys of [outfit_positions]. *)
Inductive Slot :=
  | SlotTop | SlotBottom | SlotDress | SlotOuterwear | SlotShoes | SlotAccessories.

Global Instance Slot_eq_dec : EqDecision Slot.
Proof. solve_decision. Defined.

Definition slot_name (slot : Slot) : string :=
  match slot with
  | SlotTop => "top"
  | SlotBottom => "bottom"
  | SlotDress => "dress"
  | SlotOuterwear => "outerwear"
  | SlotShoes => "shoes"
  | SlotAccessories => "accessories"
  end.

(** The first test of the dialog's loop; [false] is its [continue]. *)
Definition category_matches (item : Item) (item_type_to_change : Slot) : bool :=
  if bool_decide (lower (category item) ≠ lower (slot_name item_type_to_change))
  then
    if bool_decide (lower (slot_name item_type_to_change) = "accessories")
       && bool_decide (lower (category item) = "accessory")
    then true
    else false
  else true.

(** [outfit[item_type] = value] for the five single-item keys. *)
Definition set_slot (slot : Slot) (v : option Item) (outfit : Outfit) : Outfit :=
  match slot with
  | SlotTop => set_top v outfit
  | SlotBottom => set_bottom v outfit
  | SlotDress => set_dress v outfit
  | SlotOuterwear => set_outerwear v outfit
  | SlotShoes => set_shoes v outfit
  | SlotAccessories => outfit
  end.

(** [current_outfit_copy] after the candidate has been written into it. *)
Definition current_outfit_copy (generated : Outfit) (item_type_to_change : Slot)
    (item : Item) : Outfit :=
  match item_type_to_change with
  | SlotAccessories => set_accessories [item] generated
  | _ => set_slot item_type_to_change (Some item) generated
  end.

(** [proposed_outfit_items], in the order the dialog appends them. *)
Definition proposed_outfit_items (outfit : Outfit) : list Item :=
  option_list (top outfit) ++ option_list (bottom outfit)
  ++ option_list (dress outfit) ++ option_list (outerwear outfit)
  ++ option_list (shoes outfit) ++ accessories outfit.

(** The inner loop [for j in range(i + 1, len(...))]: [false] when it breaks. *)
Fixpoint compatible_with_rest (item1 : Item) (rest : list Item) : bool :=
  match rest with
  | [] => true
  | item2 :: rest' =>
      if _do_colors_clash (color item1) (color item2) then false
      else if negb (_do_formalities_match (Some item1) (Some item2) 1) then false
      else compatible_with_rest item1 rest'
  end.

(** The outer loop [for i in range(len(...))]. *)
Fixpoint pairwise_compatible (items : list Item) : bool :=
  match items with
  | [] => true
  | item1 :: rest =>
      if compatible_with_rest item1 rest then pairwise_compatible rest else false
  end.

(** One pass of [for item in self.clothing_items] on an outfit with all six
    keys: does [item] reach [compatible_items.append(item)]?  The same pass on
    a dictionary that may lack keys, where a read can raise [KeyError], is
    [Persistence.partial_is_compatible]. *)
Definition is_compatible (generated : Outfit) (item_type_to_change : Slot)
    (current_occasion_formal_level : Z) (item : Item) : bool :=
  if negb (category_matches item item_type_to_change) then false
  else if negb (_is_item_suitable_for_occasion item current_occasion_formal_level)
  then false
  else
    let proposed :=
      proposed_outfit_items (current_outfit_copy generated item_type_to_change item) in
    if negb (pairwise_compatible proposed) then false
    else _do_patterns_match (Some <$> proposed).

(** [occasion_formality_map.get(self.occasion_var.get(), 0)]. *)
Definition current_occasion_formal_level (app : App) : Z :=
  default 0 (occasion_formality_map !! occasion_var app).

(** The list [compatible_items] the dialog offers on an outfit with all six
    keys; [None] when the dialog refuses to open because there is no generated
    outfit.  [Persistence.partial_compatible_items] is the same loop on a
    dictionary that may lack keys. *)
Definition open_change_item_dialog (app : App) (item_type_to_change : Slot)
    : option (list Item) :=
  match generated_outfit app with
  | None => None
  | Some generated =>
      Some (filter (λ item, is_compatible generated item_type_to_change
                              (current_occasion_formal_level app) item = true)
                   (clothing_items app))
  end.

(** The writes of [select_item] once [selected_item] has been found. *)
Definition apply_selection (item_type_to_change : Slot) (selected_item : Item)
    (generated : Outfit) : Outfit :=
  match item_type_to_change with
  | SlotAccessories => set_accessories [selected_item] generated
  | _ =>
      let generated :=
        if bool_decide (item_type_to_change = SlotDress)
        then set_bottom None (set_top None generated)
        else if bool_decide (is_Some (dress generated))
                && (bool_decide (item_type_to_change = SlotTop)
                    || bool_decide (item_type_to_change = SlotBottom))
        then set_dress None generated
        else generated in
      set_slot item_type_to_change (Some selected_item) generated
  end.

(** [select_item]: [selected_id] is the focused row of the tree ([None] when
    nothing is focused); the item is looked up in [compatible_items] by id. *)
Definition select_item (app : App) (item_type_to_change : Slot)
    (selected_id : option Z) : App :=
  match generated_outfit app, open_change_item_dialog app item_type_to_change with
  | Some generated, Some compatible_items =>
      match selected_id with
      | None => app
      | Some sid =>
          match list_find (λ item, item_id item = sid) compatible_items with
          | Some (_, selected_item) =>
              set_generated_outfit
                (apply_selection item_type_to_change selected_item generated) app
          | None => app
          end
      end
  | _, _ => app
  end.

End OutfitMakerApp.

(** * Specification vocabulary *)

Import OutfitGenerator.
Import OutfitMakerApp.

(** [has_post m Q]: whatever the draws, the value [m] returns satisfies [Q]. *)
Definition has_post {A} (m : M A) (Q : A → Prop) : Prop := ∀ r : Rng, Q (m r).1.

(** The six categories of the wardrobe: the keys of [self.categories]. *)
Definition known_categories : list string :=
  ["Top"; "Bottom"; "Dress"; "Outerwear"; "Accessory"; "Shoes"].

(** The torso of a returned outfit: a dress alone, or a top and a bottom that
    passed the pair test and no dress. *)
Definition torso_ok (o : Outfit) : Prop :=
  (is_Some (dress o) ∧ top o = None ∧ bottom o = None)
  ∨ (dress o = None
     ∧ ∃ t b, top o = Some t ∧ bottom o = Some b
         ∧ _do_formalities_match (Some t) (Some b) 1 = true
         ∧ _do_colors_clash (color t) (color b) = false).

Definition same_torso (o o' : Outfit) : Prop :=
  top o' = top o ∧ bottom o' = bottom o ∧ dress o' = dress o.

Definition accessories_distinct (o : Outfit) : Prop :=
  NoDup (item_id <$> accessories o).

(** The invariant of the accessory loop: the chosen accessories have distinct
    ids, all recorded in [selected_accessory_ids]. *)
Definition accessories_inv (st : Outfit * list Item * gset Z) : Prop :=
  NoDup (item_id <$> accessories st.1.1)
  ∧ ∀ a, a ∈ accessories st.1.1 → item_id a ∈ st.2.

(** Everything the theorems below need to know about a returned outfit. *)
Definition returned_ok (o : Outfit) : Prop :=
  torso_ok o ∧ accessories_distinct o ∧ (length (accessories o) ≤ 3)%nat.

Ltac known_category := apply (bool_decide_unpack _); by vm_compute.

(** The outfit made of a top and a bottom and nothing else. *)
Definition pair_outfit (t b : Item) : Outfit :=
  {| top := Some t; bottom := Some b; dress := None; outerwear := None;
     accessories := []; shoes := None |}.

(** A small wardrobe used to exercise the theorems. *)
Definition black_tee : Item := mkItem 1 "Top" "black" "Solid" "casual" "tee.png".
Definition black_jeans : Item := mkItem 2 "Bottom" "black" "Striped" "casual" "jeans.png".
Definition floral_tee : Item := mkItem 3 "Top" "black" "Floral" "casual" "floral.png".
Definition red_shirt : Item := mkItem 4 "Top" "red" "Solid" "casual" "shirt.png".
Definition green_skirt : Item := mkItem 5 "Bottom" "green" "Solid" "formal" "skirt.png".
Definition red_gown : Item := mkItem 6 "Dress" "red" "Solid" "formal" "gown.png".
Definition white_scarf : Item := mkItem 7 "Accessory" "white" "Solid" "casual" "scarf.png".
Definition blue_hat : Item := mkItem 8 "Accessory" "blue" "Solid" "smart casual" "hat.png".
Definition grey_belt : Item := mkItem 9 "Accessory" "grey" "Solid" "casual" "belt.png".
Definition grey_boots : Item := mkItem 10 "Shoes" "grey" "Solid" "casual" "boots.png".
Definition grey_coat : Item := mkItem 11 "Outerwear" "grey" "Solid" "casual" "coat.png".

Definition sample_wardrobe : list Item :=
  [black_tee; black_jeans; red_gown; white_scarf; blue_hat; grey_belt;
   grey_boots; grey_coat].

Definition sample_rng : Rng := λ n, (3 * n + 7)%nat.

(** What [generate_outfit] returns on the sample wardrobe with those draws. *)
Definition sample_outfit : Outfit :=
  Eval vm_compute in
    default empty_outfit
      (OutfitGenerator.generate_outfit sample_wardrobe "Any" sample_rng).1.1.

(** The hypothetical item set in the words of the specification: the items of
    the current outfit with the targeted slot replaced by the candidate, the
    accessory list being replaced as a whole by the one-element list. *)
Definition hypothetical_set (current : Outfit) (slot : Slot) (candidate : Item)
    : list Item :=
  (if decide (slot = SlotTop) then [candidate] else option_list (top current))
  ++ (if decide (slot = SlotBottom) then [candidate] else option_list (bottom current))
  ++ (if decide (slot = SlotDress) then [candidate] else option_list (dress current))
  ++ (if decide (slot = SlotOuterwear) then [candidate]
      else option_list (outerwear current))
  ++ (if decide (slot = SlotShoes) then [candidate] else option_list (shoes current))
  ++ (if decide (slot = SlotAccessories) then [candidate] else accessories current).

(** Every unordered pair of a list of items has non-clashing colors and
    formalities within tolerance 1. *)
Definition all_pairs_compatible (l : list Item) : Prop :=
  ∀ (i j : nat) (x y : Item),
    (i < j)%nat → l !! i = Some x → l !! j = Some y →
    _do_colors_clash (color x) (color y) = false
    ∧ _do_formalities_match (Some x) (Some y) 1 = true.

(** The three checks of the specification's validator. *)
Definition three_checks_pass (current : Outfit) (slot : Slot) (level : Z)
    (candidate : Item) : Prop :=
  _is_item_suitable_for_occasion candidate level = true
  ∧ all_pairs_compatible (hypothetical_set current slot candidate)
  ∧ _do_patterns_match (Some <$> hypothetical_set current slot candidate) = true.

(** The category each slot stands for. *)
Definition slot_category (slot : Slot) : string :=
  match slot with
  | SlotTop => "Top"
  | SlotBottom => "Bottom"
  | SlotDress => "Dress"
  | SlotOuterwear => "Outerwear"
  | SlotShoes => "Shoes"
  | SlotAccessories => "Accessory"
  end.

(** The outfit the substitution examples start from. *)
Definition tee_and_jeans : Outfit := pair_outfit black_tee black_jeans.

(** The items held by a slot. *)
Definition slot_items (slot : Slot) (o : Outfit) : list Item :=
  match slot with
  | SlotTop => option_list (top o)
  | SlotBottom => option_list (bottom o)
  | SlotDress => option_list (dress o)
  | SlotOuterwear => option_list (outerwear o)
  | SlotShoes => option_list (shoes o)
  | SlotAccessories => accessories o
  end.

(** A dress is never populated together with a top or a bottom. *)
Definition torso_exclusive (o : Outfit) : Prop :=
  is_Some (dress o) → top o = None ∧ bottom o = None.

Definition set_occasion_var (occasion : string) (app : App) : App :=
  {| clothing_items := clothing_items app; occasion_var := occasion;
     generated_outfit := generated_outfit app |}.

(** What the user can do to the outfit on display: ask for a new one, pick
    another occasion, or apply a replacement from the change dialog. *)
Inductive app_step : App → App → Prop :=
  | step_generate (app : App) (r : Rng) :
      app_step app (OutfitMakerApp.generate_outfit app r).1.1
  | step_occasion (app : App) (occasion : string) :
      app_step app (set_occasion_var occasion app)
  | step_select (app : App) (slot : Slot) (selected_id : option Z) :
      app_step app (select_item app slot selected_id).

(** The application as it starts: nothing generated yet. *)
Definition initial_app (items : list Item) : App :=
  {| clothing_items := items; occasion_var := "Any"; generated_outfit := None |}.

Definition app_torso_exclusive (app : App) : Prop :=
  ∀ o, generated_outfit app = Some o → torso_exclusive o.

(** A run of the application: from a wardrobe with a tee, jeans and a black
    dress, generate (the draws choose top and bottom), then replace the dress
    slot by the black dress. *)
Definition black_dress : Item := mkItem 13 "Dress" "black" "Solid" "casual" "dress.png".

Definition small_wardrobe : list Item := [black_tee; black_jeans; black_dress].

Definition sample_app_generated : App :=
  (OutfitMakerApp.generate_outfit (initial_app small_wardrobe) (λ _, 5%nat)).1.1.

Definition sample_app : App := select_item sample_app_generated SlotDress (Some 13).

Definition dress_only : Outfit :=
  {| top := None; bottom := None; dress := Some black_dress; outerwear := None;
     accessories := []; shoes := None |}.

(** The colors that have a non-empty clash list. *)
Definition chromatic_colors : list string :=
  ["red"; "orange"; "yellow"; "green"; "blue"; "purple"; "pink"; "brown"].

(** [occasion_formality_map.get(occasion, 0)] followed by the occasion filter. *)
Definition suitable_for (occasion : string) (item : Item) : bool :=
  _is_item_suitable_for_occasion item
    (default 0 (occasion_formality_map !! occasion)).

(** Every item of the outfit was drawn from the pool of its own slot (the
    items of that category that pass the occasion filter). *)
Definition drawn_from (cats : gmap string (list Item)) (level : Z) (o : Outfit)
    : Prop :=
  (∀ x, top o = Some x → x ∈ available cats level "Top")
  ∧ (∀ x, bottom o = Some x → x ∈ available cats level "Bottom")
  ∧ (∀ x, dress o = Some x → x ∈ available cats level "Dress")
  ∧ (∀ x, outerwear o = Some x → x ∈ available cats level "Outerwear")
  ∧ (∀ x, shoes o = Some x → x ∈ available cats level "Shoes")
  ∧ (∀ x, x ∈ accessories o → x ∈ available cats level "Accessory").

(** Outerwear and accessories passed the acceptance test against the dress
    (else the top); shoes against the dress (else the bottom, else the top). *)
Definition extras_accepted (o : Outfit) : Prop :=
  (∀ x, outerwear o = Some x → accepts (base_item o) x = true)
  ∧ (∀ x, shoes o = Some x → accepts (base_item_for_shoes o) x = true)
  ∧ (∀ x, x ∈ accessories o → accepts (base_item o) x = true).

(** The invariant of an attempt: the outfit under construction together with
    [selected_items_for_rules], which lists exactly the items of the outfit. *)
Definition attempt_inv (cats : gmap string (list Item)) (level : Z)
    (st : Outfit * list Item) : Prop :=
  drawn_from cats level st.1 ∧ extras_accepted st.1
  ∧ st.2 ≡ₚ proposed_outfit_items st.1.

(** A wardrobe with one item per pool whose coat and boots clash. *)
Definition red_coat : Item := mkItem 14 "Outerwear" "red" "Solid" "casual" "coat.png".
Definition green_boots : Item := mkItem 15 "Shoes" "green" "Solid" "casual" "boots.png".

Definition clashing_extras_wardrobe : list Item :=
  [black_tee; black_jeans; red_coat; green_boots].

(** ** Saving and loading outfits *)

(** The dictionaries [save_current_outfit] and [load_selected_outfit] build.
    The JSON text and the [saved_outfits] table in between are not modelled:
    the data read back is taken to be the data saved. *)
Module Persistence.

(** A [generated_outfit] dictionary in which keys may be missing, as
    [load_selected_outfit] builds it.  For a single-item key [None] is a
    missing key and [Some None] the value [None]; the keys are the six of the
    dictionary [generate_outfit] creates. *)
Record PartialOutfit := mkPartial {
  p_top : option (option Item);
  p_bottom : option (option Item);
  p_dress : option (option Item);
  p_outerwear : option (option Item);
  p_accessories : option (list Item);
  p_shoes : option (option Item);
}.

(** The dictionary of a generated outfit: all six keys are there. *)
Definition of_outfit (o : Outfit) : PartialOutfit :=
  {| p_top := Some (top o); p_bottom := Some (bottom o); p_dress := Some (dress o);
     p_outerwear := Some (outerwear o); p_accessories := Some (accessories o);
     p_shoes := Some (shoes o) |}.

(** [{'id': v['id'], 'category': v['category']}]. *)
Record ItemRef := mkRef { ref_id : Z; ref_category : string }.

Definition item_ref (item : Item) : ItemRef :=
  {| ref_id := item_id item; ref_category := category item |}.

(** [outfit_to_save]: a key is written for an item and for the accessory
    list, and left out for the value [None]. *)
Record SavedOutfit := mkSaved {
  s_top : option ItemRef;
  s_bottom : option ItemRef;
  s_dress : option ItemRef;
  s_outerwear : option ItemRef;
  s_accessories : option (list ItemRef);
  s_shoes : option ItemRef;
}.

(** [if isinstance(v, dict) and 'id' in v: outfit_to_save[k] = {...}]. *)
Definition save_part (v : option (option Item)) : option ItemRef :=
  match v with
  | Some (Some item) => Some (item_ref item)
  | _ => None
  end.

(** The loop of [save_current_outfit] over [self.generated_outfit.items()]. *)
Definition outfit_to_save (generated : PartialOutfit) : SavedOutfit :=
  {| s_top := save_part (p_top generated);
     s_bottom := save_part (p_bottom generated);
     s_dress := save_part (p_dress generated);
     s_outerwear := save_part (p_outerwear generated);
     s_accessories := fmap (M := list) item_ref <$> p_accessories generated;
     s_shoes := save_part (p_shoes generated) |}.

(** [{item['id']: item for item in self.clothing_items}]: a later item with
    the same id replaces an earlier one. *)
Definition all_items_by_id (clothing_items : list Item) : gmap Z Item :=
  foldl (λ m item, <[item_id item := item]> m) ∅ clothing_items.

(** [loaded_outfit[k] = all_items_by_id.get(v['id'])]. *)
Definition load_part (by_id : gmap Z Item) (v : option ItemRef)
    : option (option Item) :=
  match v with
  | Some ref => Some (by_id !! ref_id ref)
  | None => None
  end.

(** [[by_id.get(acc['id']) for acc in v if by_id.get(acc['id'])]]. *)
Definition load_accessories (by_id : gmap Z Item) (refs : list ItemRef) : list Item :=
  omap (λ ref, by_id !! ref_id ref) refs.

(** The loop of [load_selected_outfit] over [selected_outfit_data.items()]. *)
Definition loaded_outfit (by_id : gmap Z Item) (data : SavedOutfit) : PartialOutfit :=
  {| p_top := load_part by_id (s_top data);
     p_bottom := load_part by_id (s_bottom data);
     p_dress := load_part by_id (s_dress data);
     p_outerwear := load_part by_id (s_outerwear data);
     p_accessories := load_accessories by_id <$> s_accessories data;
     p_shoes := load_part by_id (s_shoes data) |}.

(** [loaded_outfit.get(part) is not None and
     loaded_outfit[part]['id'] not in all_items_by_id]. *)
Definition part_is_dangling (by_id : gmap Z Item) (v : option (option Item)) : bool :=
  match v with
  | Some (Some item) => bool_decide (item_id item ∉ dom by_id)
  | _ => false
  end.

(** The two loops that compute [is_valid]. *)
Definition is_valid (by_id : gmap Z Item) (loaded : PartialOutfit) : bool :=
  if part_is_dangling by_id (p_top loaded) then false
  else if part_is_dangling by_id (p_bottom loaded) then false
  else if part_is_dangling by_id (p_dress loaded) then false
  else if part_is_dangling by_id (p_outerwear loaded) then false
  else if part_is_dangling by_id (p_shoes loaded) then false
  else forallb (λ acc, bool_decide (item_id acc ∈ dom by_id))
               (default [] (p_accessories loaded)).

(** The truth value of the dictionary [selected_outfit_data]: it has a key. *)
Definition saved_nonempty (data : SavedOutfit) : bool :=
  bool_decide (is_Some (s_top data) ∨ is_Some (s_bottom data)
               ∨ is_Some (s_dress data) ∨ is_Some (s_outerwear data)
               ∨ is_Some (s_accessories data) ∨ is_Some (s_shoes data)).

(** [load_selected_outfit] once the selected row has been looked up:
    [Some loaded] when [self.generated_outfit] is set to [loaded], [None]
    when one of the two error boxes is shown. *)
Definition load_selected_outfit (clothing_items : list Item)
    (selected_outfit_data : option SavedOutfit) : option PartialOutfit :=
  match selected_outfit_data with
  | Some data =>
      if saved_nonempty data then
        let by_id := all_items_by_id clothing_items in
        let loaded := loaded_outfit by_id data in
        if is_valid by_id loaded then Some loaded else None
      else None
  | None => None
  end.

(** A dictionary access that may raise [KeyError]. *)
Inductive Result (A : Type) :=
  | Ok (a : A)
  | KeyError (key : string).
Global Arguments Ok {A} a.
Global Arguments KeyError {A} key.

Definition getitem {A} (key : string) (v : option A) : Result A :=
  match v with
  | Some a => Ok a
  | None => KeyError key
  end.

Definition result_bind {A B} (m : Result A) (k : A → Result B) : Result B :=
  match m with
  | Ok a => k a
  | KeyError key => KeyError key
  end.

(** [current_outfit_copy] of the change dialog, on a dictionary that may
    lack keys: the write creates the key of the slot. *)
Definition partial_outfit_copy (generated : PartialOutfit)
    (item_type_to_change : OutfitMakerApp.Slot) (item : Item) : PartialOutfit :=
  match item_type_to_change with
  | OutfitMakerApp.SlotTop =>
      {| p_top := Some (Some item); p_bottom := p_bottom generated;
         p_dress := p_dress generated; p_outerwear := p_outerwear generated;
         p_accessories := p_accessories generated; p_shoes := p_shoes generated |}
  | OutfitMakerApp.SlotBottom =>
      {| p_top := p_top generated; p_bottom := Some (Some item);
         p_dress := p_dress generated; p_outerwear := p_outerwear generated;
         p_accessories := p_accessories generated; p_shoes := p_shoes generated |}
  | OutfitMakerApp.SlotDress =>
      {| p_top := p_top generated; p_bottom := p_bottom generated;
         p_dress := Some (Some item); p_outerwear := p_outerwear generated;
         p_accessories := p_accessories generated; p_shoes := p_shoes generated |}
  | OutfitMakerApp.SlotOuterwear =>
      {| p_top := p_top generated; p_bottom := p_bottom generated;
         p_dress := p_dress generated; p_outerwear := Some (Some item);
         p_accessories := p_accessories generated; p_shoes := p_shoes generated |}
  | OutfitMakerApp.SlotShoes =>
      {| p_top := p_top generated; p_bottom := p_bottom generated;
         p_dress := p_dress generated; p_outerwear := p_outerwear generated;
         p_accessories := p_accessories generated; p_shoes := Some (Some item) |}
  | OutfitMakerApp.SlotAccessories =>
      {| p_top := p_top generated; p_bottom := p_bottom generated;
         p_dress := p_dress generated; p_outerwear := p_outerwear generated;
         p_accessories := Some [item]; p_shoes := p_shoes generated |}
  end.

(** [proposed_outfit_items]: the keys are read in the order top, bottom,
    dress, outerwear, shoes, accessories; the first missing one raises. *)
Definition partial_proposed_items (copy : PartialOutfit) : Result (list Item) :=
  result_bind (getitem "top" (p_top copy)) (λ t,
  result_bind (getitem "bottom" (p_bottom copy)) (λ b,
  result_bind (getitem "dress" (p_dress copy)) (λ d,
  result_bind (getitem "outerwear" (p_outerwear copy)) (λ ow,
  result_bind (getitem "shoes" (p_shoes copy)) (λ sh,
  result_bind (getitem "accessories" (p_accessories copy)) (λ acc,
  Ok (option_list t ++ option_list b ++ option_list d ++ option_list ow
      ++ option_list sh ++ acc))))))).

(** One pass of the dialog's loop on such a dictionary. *)
Definition partial_is_compatible (generated : PartialOutfit)
    (item_type_to_change : OutfitMakerApp.Slot)
    (current_occasion_formal_level : Z) (item : Item) : Result bool :=
  if negb (OutfitMakerApp.category_matches item item_type_to_change) then Ok false
  else if negb (OutfitGenerator._is_item_suitable_for_occasion
                  item current_occasion_formal_level)
  then Ok false
  else
    result_bind
      (partial_proposed_items
         (partial_outfit_copy generated item_type_to_change item))
      (λ proposed,
         if negb (OutfitMakerApp.pairwise_compatible proposed) then Ok false
         else Ok (OutfitGenerator._do_patterns_match (Some <$> proposed))).

(** [for item in self.clothing_items]: the first exception ends the loop. *)
Fixpoint partial_compatible_items (generated : PartialOutfit)
    (item_type_to_change : OutfitMakerApp.Slot)
    (current_occasion_formal_level : Z) (clothing_items : list Item)
    : Result (list Item) :=
  match clothing_items with
  | [] => Ok []
  | item :: rest =>
      result_bind
        (partial_is_compatible generated item_type_to_change
           current_occasion_formal_level item)
        (λ is_compatible,
           result_bind
             (partial_compatible_items generated item_type_to_change
                current_occasion_formal_level rest)
             (λ compatible_items,
                Ok (if is_compatible : bool then item :: compatible_items
                    else compatible_items)))
  end.

End Persistence.

(** The dictionary of an outfit without the keys whose value is [None]. *)
Definition drop_empty_keys (o : Outfit) : Persistence.PartialOutfit :=
  {| Persistence.p_top := Some <$> top o;
     Persistence.p_bottom := Some <$> bottom o;
     Persistence.p_dress := Some <$> dress o;
     Persistence.p_outerwear := Some <$> outerwear o;
     Persistence.p_accessories := Some (accessories o);
     Persistence.p_shoes := Some <$> shoes o |}.

(** A saved outfit that points at an item no longer in the sample wardrobe. *)
Definition stale_saved_outfit : Persistence.SavedOutfit :=
  {| Persistence.s_top := Some (Persistence.mkRef 1 "Top");
     Persistence.s_bottom := Some (Persistence.mkRef 404 "Bottom");
     Persistence.s_dress := None;
     Persistence.s_outerwear := None;
     Persistence.s_accessories :=
       Some [Persistence.mkRef 7 "Accessory"; Persistence.mkRef 405 "Accessory"];
     Persistence.s_shoes := None |}.

(** The outfit with one slot emptied. *)
Definition clear_slot (slot : Slot) (o : Outfit) : Outfit :=
  match slot with
  | SlotAccessories => set_accessories [] o
  | _ => set_slot slot None o
  end.

(** The outfit [generate_outfit] returns on [clashing_extras_wardrobe]. *)
Definition clashing_extras_outfit : Outfit :=
  {| top := Some black_tee; bottom := Some black_jeans; dress := None;
     outerwear := Some red_coat; accessories := []; shoes := Some green_boots |}.

(** The items a key of an outfit dictionary contributes: the item it holds,
    nothing when the key is missing or holds [None]. *)
Definition held (v : option (option Item)) : list Item :=
  match v with
  | Some (Some item) => [item]
  | _ => []
  end.

(** The hypothetical item set in the words of the specification, for an
    outfit dictionary: the items currently assigned, with the targeted slot
    replaced by the candidate (the whole accessory list by the one-element
    list). *)
Definition partial_hypothetical_set (current : Persistence.PartialOutfit)
    (slot : Slot) (candidate : Item) : list Item :=
  (if decide (slot = SlotTop) then [candidate]
   else held (Persistence.p_top current))
  ++ (if decide (slot = SlotBottom) then [candidate]
      else held (Persistence.p_bottom current))
  ++ (if decide (slot = SlotDress) then [candidate]
      else held (Persistence.p_dress current))
  ++ (if decide (slot = SlotOuterwear) then [candidate]
      else held (Persistence.p_outerwear current))
  ++ (if decide (slot = SlotShoes) then [candidate]
      else held (Persistence.p_shoes current))
  ++ (if decide (slot = SlotAccessories) then [candidate]
      else default [] (Persistence.p_accessories current)).

(** The dictionary holds every key the dialog reads, the key of the targeted
    slot apart (that one is written before the reads). *)
Definition other_keys_present (current : Persistence.PartialOutfit) (slot : Slot)
    : Prop :=
  (slot = SlotTop ∨ is_Some (Persistence.p_top current))
  ∧ (slot = SlotBottom ∨ is_Some (Persistence.p_bottom current))
  ∧ (slot = SlotDress ∨ is_Some (Persistence.p_dress current))
  ∧ (slot = SlotOuterwear ∨ is_Some (Persistence.p_outerwear current))
  ∧ (slot = SlotShoes ∨ is_Some (Persistence.p_shoes current))
  ∧ (slot = SlotAccessories ∨ is_Some (Persistence.p_accessories current)).

Global Instance other_keys_present_dec current slot :
  Decision (other_keys_present current slot).
Proof. unfold other_keys_present. apply _. Defined.

(** An item whose category is spelled like the accessories slot. *)
Definition plural_bangle : Item :=
  mkItem 16 "Accessories" "black" "Solid" "casual" "bangle.png".

(** The sample outfit after it has been saved and loaded back. *)
Definition reloaded_sample_outfit : Persistence.PartialOutfit :=
  Persistence.loaded_outfit (Persistence.all_items_by_id sample_wardrobe)
    (Persistence.outfit_to_save (Persistence.of_outfit sample_outfit)).

(** * Properties *)
(** ** Rule engine *)

Example lower_smart_casual : lower "Smart Casual" = "smart casual".
Proof. reflexivity. Qed.

Example clash_red_green : _do_colors_clash "Red" "green" = true.
Proof. vm_compute. reflexivity. Qed.

Example no_clash_blue_red : _do_colors_clash "blue" "red" = false.
Proof. vm_compute. reflexivity. Qed.

Lemma lower_eq_empty (s : string) : lower s = "" ↔ s = "".
Proof. destruct s; simpl; split; intros H; done. Qed.

(** The answer of [_do_colors_clash] once both guards are passed. *)
Lemma do_colors_clash_with_unfold neutral table (c1 c2 : string) :
  do_colors_clash_with neutral table c1 c2 =
    negb (bool_decide (c1 = "") || bool_decide (c2 = ""))
    && negb (bool_decide (lower c1 ∈ neutral) || bool_decide (lower c2 ∈ neutral))
    && (listed_clash table (lower c1) (lower c2)
        || listed_clash table (lower c2) (lower c1)).
Proof.
  unfold do_colors_clash_with.
  destruct (bool_decide (c1 = "") || bool_decide (c2 = "")); [done|].
  destruct (bool_decide (lower c1 ∈ neutral) || bool_decide (lower c2 ∈ neutral));
    [done|].
  simpl. by do 2 destruct (listed_clash _ _ _).
Qed.

Lemma do_colors_clash_guard (c1 c2 : string) :
  lower c1 = "" ∨ lower c1 ∈ neutral_colors
  ∨ lower c2 = "" ∨ lower c2 ∈ neutral_colors →
  _do_colors_clash c1 c2 = false.
Proof.
  intros H. unfold _do_colors_clash. rewrite do_colors_clash_with_unfold.
  destruct H as [H|[H|[H|H]]].
  - apply (proj1 (lower_eq_empty _)) in H. by rewrite (bool_decide_eq_true_2 _ H).
  - rewrite (bool_decide_eq_true_2 _ H). apply andb_false_intro1, andb_false_intro2.
    done.
  - apply (proj1 (lower_eq_empty _)) in H. rewrite (bool_decide_eq_true_2 _ H).
    by rewrite orb_true_r.
  - rewrite (bool_decide_eq_true_2 _ H). apply andb_false_intro1, andb_false_intro2.
    by rewrite orb_true_r.
Qed.

(** C7. [_do_colors_clash] answers [False] as soon as one of the two colors,
    lower-cased, is empty or is one of the neutral colors black, white, grey,
    beige, navy; in particular two neutral colors never clash. *)
Theorem neutral_or_empty_never_clashes (c1 c2 : string) :
  lower c1 = "" ∨ lower c1 ∈ neutral_colors
  ∨ lower c2 = "" ∨ lower c2 ∈ neutral_colors →
  _do_colors_clash c1 c2 = false.
Proof. exact (do_colors_clash_guard c1 c2). Qed.

Lemma neutral_or_empty_never_clashes_witness :
  _do_colors_clash "Navy" "red" = false ∧ _do_colors_clash "white" "BLACK" = false
  ∧ _do_colors_clash "green" "" = false.
Proof.
  split; [|split].
  - apply (neutral_or_empty_never_clashes "Navy" "red").
    right; left. vm_compute. set_solver.
  - apply (neutral_or_empty_never_clashes "white" "BLACK").
    right; left. vm_compute. set_solver.
  - apply (neutral_or_empty_never_clashes "green" "").
    right; right; left. reflexivity.
Defined.

(** C8. [_do_colors_clash] gives the same answer when its arguments are
    swapped.  This owes nothing to the contents of the tables: the test looks
    up both directions, so it holds for any neutral list and any clash table,
    symmetric in storage or not. *)
Theorem colors_clash_symmetric :
  (∀ a b : string, _do_colors_clash a b = _do_colors_clash b a)
  ∧ (∀ neutral table (a b : string),
       do_colors_clash_with neutral table a b = do_colors_clash_with neutral table b a).
Proof.
  assert (∀ neutral table (a b : string),
    do_colors_clash_with neutral table a b = do_colors_clash_with neutral table b a)
    as Hsym.
  { intros neutral table a b. rewrite !do_colors_clash_with_unfold.
    rewrite (orb_comm (bool_decide (a = ""))).
    rewrite (orb_comm (bool_decide (lower a ∈ neutral))).
    by rewrite (orb_comm (listed_clash table (lower a) (lower b))). }
  split; [intros a b; apply Hsym | exact Hsym].
Qed.

(** A table stored in one direction only still clashes in both. *)
Example one_way_table_clashes_both_ways :
  let table : gmap string (list string) := {[ "teal" := ["maroon"] ]} in
  do_colors_clash_with [] table "teal" "maroon" = true
  ∧ do_colors_clash_with [] table "maroon" "teal" = true.
Proof. vm_compute. done. Qed.

(** ** Reasoning about code that draws from the oracle *)

Lemma has_post_ret {A} (a : A) (Q : A → Prop) : Q a → has_post (ret a) Q.
Proof. intros H r. exact H. Qed.

Lemma has_post_bind {A B} (m : M A) (k : A → M B) (P : A → Prop) (Q : B → Prop) :
  has_post m P → (∀ a, P a → has_post (k a) Q) → has_post (bind m k) Q.
Proof.
  intros Hm Hk r. unfold bind. specialize (Hm r).
  destruct (m r) as [a r']. simpl in Hm. apply (Hk a Hm r').
Qed.

Lemma has_post_weaken {A} (m : M A) (P Q : A → Prop) :
  has_post m P → (∀ a, P a → Q a) → has_post m Q.
Proof. intros Hm HPQ r. apply HPQ, Hm. Qed.

Lemma has_post_true {A} (m : M A) : has_post m (λ _, True).
Proof. intros r. exact I. Qed.

(** [random.choice] returns a member of its argument; the helper returns
    [None] exactly on the empty list. *)
Lemma get_random_element_post {A} (arr : list A) :
  has_post (_get_random_element arr)
    (λ x, match x with Some a => a ∈ arr | None => arr = [] end).
Proof.
  destruct arr as [|a0 arr]; [by apply has_post_ret|].
  intros r. set (l := a0 :: arr).
  change ((_get_random_element l r).1) with (l !! (r 0 `mod` length l)%nat).
  destruct (l !! (r 0 `mod` length l)%nat) as [a|] eqn:E.
  - by eapply list_elem_of_lookup_2.
  - apply lookup_ge_None in E.
    pose proof (Nat.mod_upper_bound (r 0%nat) (length l)) as Hlt.
    subst l. simpl length in *. lia.
Qed.

Lemma randint0_post (hi : nat) : has_post (randint0 hi) (λ n, n ≤ hi)%nat.
Proof.
  intros r. change ((randint0 hi r).1) with (r 0 `mod` S hi)%nat.
  pose proof (Nat.mod_upper_bound (r 0%nat) (S hi)). lia.
Qed.

(** ** The catalog view *)

Lemma foldl_add_to_category_lookup (items : list Item) :
  ∀ (cats : gmap string (list Item)) (c : string),
    foldl add_to_category cats items !! c
    = (λ l, l ++ filter (λ item, category item = c) items) <$> cats !! c.
Proof.
  induction items as [|x items IH]; intros cats c; simpl.
  - destruct (cats !! c); simpl; [by rewrite app_nil_r | done].
  - rewrite IH. unfold add_to_category.
    destruct (decide (category x = c)) as [<-|Hne].
    + rewrite filter_cons_True by done.
      destruct (cats !! category x) as [l|] eqn:E.
      * rewrite lookup_insert_eq. simpl. by rewrite <- app_assoc.
      * by rewrite E.
    + rewrite filter_cons_False by done.
      destruct (cats !! category x) as [l|] eqn:E; [|done].
      by rewrite lookup_insert_ne.
Qed.

(** [itemsOf(category)]: the items of that category, in catalog order. *)
Lemma categories_lookup_total (items : list Item) (c : string) :
  c ∈ known_categories →
  categories items !!! c = filter (λ item, category item = c) items.
Proof.
  intros Hc. unfold categories.
  rewrite lookup_total_alt, foldl_add_to_category_lookup.
  assert (init_categories !! c = Some []) as ->; [|done].
  unfold known_categories in Hc.
  repeat (apply elem_of_cons in Hc as [->|Hc]; [by vm_compute|]).
  by apply elem_of_nil in Hc.
Qed.

Lemma available_categories (items : list Item) (level : Z) (c : string) :
  c ∈ known_categories →
  available (categories items) level c
  = filter (λ item, _is_item_suitable_for_occasion item level = true)
      (filter (λ item, category item = c) items).
Proof. intros Hc. unfold available. by rewrite categories_lookup_total. Qed.

(** ** The attempt loop *)

(** If every attempt ends in [continue], the loop runs out its budget. *)
Lemma attempts_loop_all_continue cats level :
  has_post (attempt cats level) (λ s, s = Continue) →
  ∀ (remaining attempts : nat) (r : Rng),
    (attempts_loop cats level remaining attempts r).1
    = (None, (attempts + remaining)%nat).
Proof.
  intros Hc remaining. induction remaining as [|k IH]; intros attempts r; simpl.
  - unfold ret. simpl. f_equal. lia.
  - unfold bind. specialize (Hc r). destruct (attempt cats level r) as [s r'].
    simpl in Hc. subst s. rewrite IH. f_equal. lia.
Qed.

(** If every attempt returns the same outfit, the first attempt is the last. *)
Lemma attempts_loop_first_returns cats level (outfit : Outfit) :
  has_post (attempt cats level) (λ s, s = ReturnOutfit outfit) →
  ∀ (remaining attempts : nat) (r : Rng),
    (attempts_loop cats level (S remaining) attempts r).1
    = (Some outfit, S attempts).
Proof.
  intros Hc remaining attempts r. simpl. unfold bind. specialize (Hc r).
  destruct (attempt cats level r) as [s r']. simpl in Hc. by subst s.
Qed.

(** A property of every outfit an attempt can return holds of the outfit the
    loop returns. *)
Lemma attempts_loop_post cats level (Q : Outfit → Prop) :
  has_post (attempt cats level)
    (λ s, match s with ReturnOutfit o => Q o | _ => True end) →
  ∀ remaining attempts,
    has_post (attempts_loop cats level remaining attempts)
      (λ res, match res.1 with Some o => Q o | None => True end).
Proof.
  intros Hc remaining. induction remaining as [|k IH]; intros attempts; simpl.
  - by apply has_post_ret.
  - eapply has_post_bind; [exact Hc|]. intros [| |o] Ho.
    + apply IH.
    + by apply has_post_ret.
    + by apply has_post_ret.
Qed.

(** ** What an attempt can return *)

Lemma select_torso_post cats level :
  has_post (select_torso cats level)
    (λ x, match x with
          | Some (o, sel) => torso_ok o ∧ accessories o = []
          | None => True
          end).
Proof.
  unfold select_torso.
  eapply has_post_bind; [apply has_post_true|]. intros roll _.
  eapply (has_post_bind _ _
    (λ st : Outfit * list Item * bool,
       accessories st.1.1 = [] ∧ top st.1.1 = None ∧ bottom st.1.1 = None
       ∧ (if st.2 then is_Some (dress st.1.1) else dress st.1.1 = None))).
  - destruct roll; [|by apply has_post_ret].
    eapply has_post_bind; [apply has_post_true|]. intros [d|] _.
    + apply has_post_ret. simpl. eauto.
    + by apply has_post_ret.
  - intros [[o sel] use_dress] (Hacc & Ht & Hb & Hd). simpl in *.
    destruct use_dress; simpl.
    + apply has_post_ret. split; [|done]. left. done.
    + eapply has_post_bind; [apply has_post_true|]. intros t _.
      eapply has_post_bind; [apply has_post_true|]. intros b _.
      destruct t as [t|], b as [b|]; simpl; rewrite ?Hd;
        try by apply has_post_ret.
      destruct (negb _ || _) eqn:E; apply has_post_ret; [done|].
      apply orb_false_elim in E as [E1 E2]. apply negb_false_iff in E1.
      split; [|done]. right. split; [done|]. exists t, b. done.
Qed.

Lemma select_outerwear_post cats level (o : Outfit) (sel : list Item) :
  has_post (select_outerwear cats level (o, sel))
    (λ st, same_torso o st.1 ∧ accessories st.1 = accessories o).
Proof.
  unfold select_outerwear.
  destruct (available cats level "Outerwear"); [by apply has_post_ret|].
  eapply has_post_bind; [apply has_post_true|]. intros [p|] _;
    [|by apply has_post_ret].
  destruct (accepts _ _); by apply has_post_ret.
Qed.

Lemma select_shoes_post cats level (o : Outfit) (sel : list Item) :
  has_post (select_shoes cats level (o, sel))
    (λ st, same_torso o st.1 ∧ accessories st.1 = accessories o).
Proof.
  unfold select_shoes.
  destruct (available cats level "Shoes"); [by apply has_post_ret|].
  eapply has_post_bind; [apply has_post_true|]. intros [p|] _;
    [|by apply has_post_ret].
  destruct (accepts _ _); by apply has_post_ret.
Qed.

Lemma accessories_loop_post cats level (n : nat) :
  ∀ st, accessories_inv st →
    has_post (accessories_loop cats level n st)
      (λ st', accessories_inv st' ∧ same_torso st.1.1 st'.1.1
              ∧ (length (accessories st'.1.1) ≤ length (accessories st.1.1) + n)%nat).
Proof.
  induction n as [|n IH]; intros [[o sel] ids] Hinv; simpl.
  - apply has_post_ret. unfold same_torso. simpl. split; [done|]. split; [done|lia].
  - eapply has_post_bind; [apply has_post_true|]. intros acc _.
    assert (∀ st1, accessories_inv st1 → same_torso o st1.1.1 →
              (length (accessories st1.1.1) ≤ S (length (accessories o)))%nat →
              has_post (accessories_loop cats level n st1)
                (λ st', accessories_inv st' ∧ same_torso o st'.1.1
                   ∧ (length (accessories st'.1.1)
                      ≤ length (accessories o) + S n)%nat)) as Hnext.
    { intros st1 Hinv1 Hsame1 Hlen1.
      eapply has_post_weaken; [apply (IH st1 Hinv1)|].
      intros st' (Hinv' & Hsame' & Hlen'). split; [done|]. split; [|lia].
      destruct Hsame1 as (? & ? & ?), Hsame' as (? & ? & ?).
      unfold same_torso. split_and!; congruence. }
    destruct acc as [a|]; [|apply Hnext; [done|done|simpl; lia]].
    destruct (bool_decide (item_id a ∉ ids) && accepts (base_item o) a) eqn:E;
      [|apply Hnext; [done|done|simpl; lia]].
    apply andb_true_iff in E as [Hfresh _]. apply bool_decide_eq_true in Hfresh.
    destruct Hinv as [Hnd Hids]. simpl in Hnd, Hids.
    apply Hnext; [|done|simpl; rewrite length_app; simpl; lia].
    split; simpl.
    + rewrite fmap_app. simpl. apply NoDup_app. split; [done|].
      split; [|apply NoDup_singleton].
      intros i Hi Hi'. apply list_elem_of_singleton in Hi'. subst i.
      apply list_elem_of_fmap in Hi as (a' & Heq & Ha').
      apply Hfresh. rewrite Heq. by apply Hids.
    + intros a' Ha'. apply elem_of_app in Ha' as [Ha'|Ha'].
      * apply elem_of_union_l. by apply Hids.
      * apply list_elem_of_singleton in Ha'. subst a'.
        apply elem_of_union_r. by apply elem_of_singleton.
Qed.

Lemma select_accessories_post cats level (o : Outfit) (sel : list Item) :
  accessories o = [] →
  has_post (select_accessories cats level (o, sel))
    (λ st, same_torso o st.1 ∧ accessories_distinct st.1
           ∧ (length (accessories st.1) ≤ 3)%nat).
Proof.
  intros Hacc. unfold select_accessories.
  destruct (available cats level "Accessory") eqn:Eav.
  - apply has_post_ret. unfold accessories_distinct. simpl. rewrite Hacc.
    simpl. split; [done|]. split; [apply NoDup_nil_2|lia].
  - rewrite <- Eav. clear Eav.
    eapply has_post_bind; [apply randint0_post|]. intros num Hnum.
    eapply has_post_bind.
    + apply (accessories_loop_post cats level num (o, sel, ∅)).
      split; simpl; rewrite Hacc; [apply NoDup_nil_2|].
      intros a Ha. by apply elem_of_nil in Ha.
    + intros [[o' sel'] ids'] (Hinv & Hsame & Hlen). simpl in *.
      apply has_post_ret. simpl. split; [done|]. split; [apply Hinv|].
      rewrite Hacc in Hlen. simpl in Hlen. lia.
Qed.

Lemma same_torso_ok (o o' : Outfit) : same_torso o o' → torso_ok o → torso_ok o'.
Proof.
  intros (Ht & Hb & Hd). unfold torso_ok. rewrite Ht, Hb, Hd. done.
Qed.

Lemma attempt_post cats level :
  has_post (attempt cats level)
    (λ s, match s with ReturnOutfit o => returned_ok o | _ => True end).
Proof.
  unfold attempt.
  eapply has_post_bind; [apply select_torso_post|].
  intros [[o sel]|] Ht; [|by apply has_post_ret].
  destruct Ht as [Htorso Hacc].
  destruct sel as [|s0 sel]; [by apply has_post_ret|].
  eapply has_post_bind; [apply select_outerwear_post|].
  intros [o1 sel1] [Hs1 Ha1]. simpl in Hs1, Ha1.
  eapply has_post_bind; [apply select_shoes_post|].
  intros [o2 sel2] [Hs2 Ha2]. simpl in Hs2, Ha2.
  eapply has_post_bind; [apply select_accessories_post; congruence|].
  intros [o3 sel3] (Hs3 & Hnd & Hlen). simpl in *.
  destruct (_do_patterns_match _); apply has_post_ret; [|done].
  split; [|done].
  eapply same_torso_ok; [exact Hs3|].
  eapply same_torso_ok; [exact Hs2|].
  eapply same_torso_ok; [exact Hs1|]. done.
Qed.

(** Whatever the catalog, the occasion and the draws, an outfit returned by
    [generate_outfit] satisfies [returned_ok]. *)
Lemma generate_outfit_returned_ok items occasion_type (r : Rng) (o : Outfit) :
  (OutfitGenerator.generate_outfit items occasion_type r).1.1 = Some o →
  returned_ok o.
Proof.
  intros H. unfold OutfitGenerator.generate_outfit in H.
  pose proof (attempts_loop_post _ _ returned_ok
                (attempt_post (categories items)
                   (default 0 (occasion_formality_map !! occasion_type)))
                max_attempts 0%nat r) as Hpost.
  cbv beta in Hpost. by rewrite H in Hpost.
Qed.

(** ** Attempts on small catalogs *)

Lemma get_random_element_singleton {A} (a : A) :
  has_post (_get_random_element [a]) (λ x, x = Some a).
Proof.
  eapply has_post_weaken; [apply get_random_element_post|].
  intros [x|] H; simpl in H; [|done].
  apply list_elem_of_singleton in H. by subst.
Qed.

(** Without a suitable dress, and when no suitable top goes with any suitable
    bottom, every attempt ends in [continue]. *)
Lemma attempt_without_anchor cats level :
  available cats level "Dress" = [] →
  (∀ t b, t ∈ available cats level "Top" → b ∈ available cats level "Bottom" →
     _do_formalities_match (Some t) (Some b) 1 = false
     ∨ _do_colors_clash (color t) (color b) = true) →
  has_post (attempt cats level) (λ s, s = Continue).
Proof.
  intros Hd Hpair. unfold attempt.
  eapply (has_post_bind _ _ (λ x, x = None)); [|by intros ? ->; apply has_post_ret].
  unfold select_torso. rewrite Hd.
  eapply (has_post_bind _ _ (λ x, x = false)); [by apply has_post_ret|].
  intros ? ->.
  eapply (has_post_bind _ _ (λ x, x = (empty_outfit, [], false)));
    [by apply has_post_ret|].
  intros ? ->. simpl negb. cbv iota.
  eapply has_post_bind; [apply get_random_element_post|]. intros t Ht.
  eapply has_post_bind; [apply get_random_element_post|]. intros b Hb.
  destruct t as [t|], b as [b|]; try by apply has_post_ret.
  destruct (Hpair t b Ht Hb) as [H|H]; rewrite H; simpl;
    rewrite ?orb_true_r; by apply has_post_ret.
Qed.

(** With exactly one suitable top, one suitable bottom and nothing else, an
    attempt returns that pair when it passes the pair test and the pattern
    rule, and ends in [continue] otherwise. *)
Lemma attempt_single_pair cats level (t b : Item) :
  available cats level "Dress" = [] →
  available cats level "Top" = [t] →
  available cats level "Bottom" = [b] →
  available cats level "Outerwear" = [] →
  available cats level "Shoes" = [] →
  available cats level "Accessory" = [] →
  has_post (attempt cats level)
    (λ s, s = if negb (_do_formalities_match (Some t) (Some b) 1)
                 || _do_colors_clash (color t) (color b)
              then Continue
              else if _do_patterns_match [Some t; Some b]
              then ReturnOutfit {| top := Some t; bottom := Some b; dress := None;
                                   outerwear := None; accessories := [];
                                   shoes := None |}
              else Continue).
Proof.
  intros Hd Ht Hb Ho Hs Ha. unfold attempt.
  set (pair_outfit := {| top := Some t; bottom := Some b; dress := None;
                         outerwear := None; accessories := []; shoes := None |}).
  eapply (has_post_bind _ _
    (λ x, x = if negb (_do_formalities_match (Some t) (Some b) 1)
                 || _do_colors_clash (color t) (color b)
              then None else Some (pair_outfit, [t; b]))).
  - unfold select_torso. rewrite Hd, Ht, Hb.
    eapply (has_post_bind _ _ (λ x, x = false)); [by apply has_post_ret|].
    intros ? ->.
    eapply (has_post_bind _ _ (λ x, x = (empty_outfit, [], false)));
      [by apply has_post_ret|].
    intros ? ->. simpl negb. cbv iota.
    eapply has_post_bind; [apply get_random_element_singleton|]. intros ? ->.
    eapply has_post_bind; [apply get_random_element_singleton|]. intros ? ->.
    destruct (negb _ || _); by apply has_post_ret.
  - intros ? ->. destruct (negb _ || _); [by apply has_post_ret|].
    unfold select_outerwear, select_shoes, select_accessories.
    rewrite Ho, Hs, Ha.
    eapply has_post_bind; [apply (has_post_ret _ (λ x, x = (pair_outfit, [t; b])));
                           done|].
    intros ? ->.
    eapply has_post_bind; [apply (has_post_ret _ (λ x, x = (pair_outfit, [t; b])));
                           done|].
    intros ? ->.
    eapply has_post_bind; [apply (has_post_ret _ (λ x, x = (pair_outfit, [t; b])));
                           done|].
    intros ? ->. simpl.
    destruct (_do_patterns_match _); by apply has_post_ret.
Qed.

(** The pools of a catalog made of one top and one bottom. *)
Lemma pools_of_top_and_bottom (t b : Item) (items : list Item) (level : Z) :
  category t = "Top" → category b = "Bottom" →
  items = [t; b] ∨ items = [b; t] →
  let suitable := λ item, _is_item_suitable_for_occasion item level = true in
  available (categories items) level "Top" = filter suitable [t]
  ∧ available (categories items) level "Bottom" = filter suitable [b]
  ∧ available (categories items) level "Dress" = []
  ∧ available (categories items) level "Outerwear" = []
  ∧ available (categories items) level "Shoes" = []
  ∧ available (categories items) level "Accessory" = [].
Proof.
  intros Ht Hb Hitems suitable.
  assert (∀ c, c ∈ known_categories →
            filter (λ item, category item = c) items
            = (if decide (c = "Top") then [t] else [])
              ++ (if decide (c = "Bottom") then [b] else [])) as Hfilter.
  { intros c _. destruct Hitems as [-> | ->];
      rewrite !filter_cons, filter_nil, Ht, Hb;
      repeat case_decide; simplify_eq; done. }
  rewrite !available_categories by known_category.
  rewrite !Hfilter by known_category.
  repeat case_decide; simplify_eq; done.
Qed.

Lemma suitable_for_any (item : Item) : _is_item_suitable_for_occasion item 0 = true.
Proof. reflexivity. Qed.

Lemma level_of_Any : default 0 (occasion_formality_map !! "Any") = 0.
Proof. reflexivity. Qed.

Lemma lower_nonempty (s l : string) : lower s = l → l ≠ "" → s ≠ "".
Proof. intros <- H ->. by apply H. Qed.

Lemma red_green_clash (c1 c2 : string) :
  lower c1 = "red" → lower c2 = "green" → _do_colors_clash c1 c2 = true.
Proof.
  intros H1 H2. unfold _do_colors_clash. rewrite do_colors_clash_with_unfold.
  rewrite (bool_decide_eq_false_2 (c1 = "")) by (by eapply lower_nonempty).
  rewrite (bool_decide_eq_false_2 (c2 = "")) by (by eapply lower_nonempty).
  rewrite H1, H2. by vm_compute.
Qed.

Lemma casual_formalities_match (t b : Item) :
  lower (formality t) = "casual" → lower (formality b) = "casual" →
  _do_formalities_match (Some t) (Some b) 1 = true.
Proof.
  intros Ht Hb. unfold _do_formalities_match, formality_rank. by rewrite Ht, Hb.
Qed.

Lemma patterns_match_pair (t b : Item) :
  _do_patterns_match [Some t; Some b] = true
  ↔ lower (pattern t) = "solid" ∨ lower (pattern b) = "solid".
Proof.
  unfold _do_patterns_match. simpl.
  destruct (decide (lower (pattern t) = "solid")) as [Ht|Ht],
           (decide (lower (pattern b) = "solid")) as [Hb|Hb].
  all: rewrite ?(bool_decide_eq_false_2 _ (λ H, H Ht)),
               ?(bool_decide_eq_false_2 _ (λ H, H Hb)),
               ?(bool_decide_eq_true_2 _ Ht), ?(bool_decide_eq_true_2 _ Hb).
  all: rewrite bool_decide_eq_true; split; intros H; try lia; tauto.
Qed.

(** ** Generation *)

Lemma sample_outfit_generated :
  (OutfitGenerator.generate_outfit sample_wardrobe "Any" sample_rng).1.1
  = Some sample_outfit.
Proof. by vm_compute. Qed.

(** On an empty catalog the "Suggest an Outfit!" handler returns at once,
    whatever the occasion selected: no outfit is recorded, no attempt of the
    search is spent (the generator is never built) and no draw is made. *)
Lemma empty_catalog_short_circuits :
  ∀ (occasion : string) (previous : option Outfit) (r : Rng),
    OutfitMakerApp.generate_outfit (OutfitMakerApp.mkApp [] occasion previous) r
    = ((OutfitMakerApp.mkApp [] occasion None, 0%nat), r).
Proof. intros occasion previous r. reflexivity. Qed.

(** On a non-empty catalog the handler records exactly what
    [OutfitGenerator.generate_outfit] returns. *)
Lemma app_generate_outfit_nonempty (app : OutfitMakerApp.App) (r : Rng) :
  OutfitMakerApp.clothing_items app ≠ [] →
  let res := (OutfitGenerator.generate_outfit
                (OutfitMakerApp.clothing_items app)
                (OutfitMakerApp.occasion_var app) r).1 in
  OutfitMakerApp.generated_outfit (OutfitMakerApp.generate_outfit app r).1.1 = res.1
  ∧ (OutfitMakerApp.generate_outfit app r).1.2 = res.2.
Proof.
  intros Hne. unfold OutfitMakerApp.generate_outfit.
  destruct (OutfitMakerApp.clothing_items app) as [|i items] eqn:E; [done|].
  unfold bind. destruct (OutfitGenerator.generate_outfit _ _ r) as [[o n] r'].
  simpl. destruct o; done.
Qed.



(** C5. A catalog made of one red top and one green bottom never yields an
    outfit, whatever the occasion, the other attributes of the two items, the
    order of the catalog and the draws: all 1000 attempts are spent and
    [None] is returned. *)
Theorem red_top_green_bottom_absent (t b : Item) (items : list Item)
    (occasion_type : string) (r : Rng) :
  category t = "Top" → category b = "Bottom" →
  lower (color t) = "red" → lower (color b) = "green" →
  items = [t; b] ∨ items = [b; t] →
  (OutfitGenerator.generate_outfit items occasion_type r).1 = (None, 1000%nat).
Proof.
  intros Hct Hcb Hred Hgreen Hitems. unfold OutfitGenerator.generate_outfit.
  set (level := default 0 (occasion_formality_map !! occasion_type)).
  destruct (pools_of_top_and_bottom t b items level Hct Hcb Hitems)
    as (Htops & Hbottoms & Hdresses & _).
  rewrite attempts_loop_all_continue; [done|].
  apply attempt_without_anchor; [done|].
  intros t' b' Ht' Hb'. right.
  rewrite Htops in Ht'. rewrite Hbottoms in Hb'.
  apply list_elem_of_filter in Ht' as [_ Ht']. apply list_elem_of_singleton in Ht'.
  apply list_elem_of_filter in Hb' as [_ Hb']. apply list_elem_of_singleton in Hb'.
  subst t' b'. by apply red_green_clash.
Qed.

Lemma red_top_green_bottom_absent_witness :
  (OutfitGenerator.generate_outfit [green_skirt; red_shirt] "Party" sample_rng).1
  = (None, 1000%nat).
Proof.
  apply (red_top_green_bottom_absent red_shirt green_skirt); try reflexivity.
  right. reflexivity.
Defined.

(** What [generate_outfit] does, for occasion "Any", on a catalog made of one
    black casual top and one black casual bottom. *)
Lemma black_pair_generate (t b : Item) (items : list Item) (r : Rng) :
  category t = "Top" → category b = "Bottom" →
  lower (color t) = "black" → lower (color b) = "black" →
  lower (formality t) = "casual" → lower (formality b) = "casual" →
  items = [t; b] ∨ items = [b; t] →
  (OutfitGenerator.generate_outfit items "Any" r).1
  = if _do_patterns_match [Some t; Some b]
    then (Some (pair_outfit t b), 1%nat)
    else (None, 1000%nat).
Proof.
  intros Hct Hcb Hbt Hbb Hft Hfb Hitems. unfold OutfitGenerator.generate_outfit.
  rewrite level_of_Any.
  destruct (pools_of_top_and_bottom t b items 0 Hct Hcb Hitems)
    as (Htops & Hbottoms & Hdresses & Houter & Hshoes & Hacc).
  rewrite filter_cons_True, filter_nil in Htops by apply suitable_for_any.
  rewrite filter_cons_True, filter_nil in Hbottoms by apply suitable_for_any.
  pose proof (attempt_single_pair _ _ t b Hdresses Htops Hbottoms Houter Hshoes Hacc)
    as Hattempt.
  rewrite casual_formalities_match in Hattempt by done.
  rewrite do_colors_clash_guard in Hattempt
    by (right; left; rewrite Hbt; known_category).
  simpl in Hattempt. fold (pair_outfit t b) in Hattempt. revert Hattempt.
  destruct (_do_patterns_match [Some t; Some b]); intros Hattempt.
  - change max_attempts with (S 999).
    by rewrite (attempts_loop_first_returns _ _ _ Hattempt).
  - by rewrite (attempts_loop_all_continue _ _ Hattempt).
Qed.

(** C2, as stated, fails: when the black top and the black bottom are both
    patterned (floral and striped here) every attempt is discarded by the
    pattern rule and no outfit is returned. *)
Lemma black_pair_both_patterned_absent :
  category floral_tee = "Top" ∧ category black_jeans = "Bottom"
  ∧ color floral_tee = "black" ∧ color black_jeans = "black"
  ∧ formality floral_tee = "casual" ∧ formality black_jeans = "casual"
  ∧ (OutfitGenerator.generate_outfit [floral_tee; black_jeans] "Any" sample_rng).1
    = (None, 1000%nat).
Proof. by vm_compute. Qed.

(** C2, amended. For a catalog made of one black casual top and one black
    casual bottom, [generate_outfit] with occasion "Any" returns, at the first
    attempt, the outfit with exactly that top and that bottom, no dress, no
    outerwear, no shoes and no accessories, provided at most one of the two
    items has a pattern other than solid; when both are patterned it returns
    [None] after 1000 attempts. *)
Theorem black_pair_any (t b : Item) (items : list Item) (r : Rng) :
  category t = "Top" → category b = "Bottom" →
  lower (color t) = "black" → lower (color b) = "black" →
  lower (formality t) = "casual" → lower (formality b) = "casual" →
  items = [t; b] ∨ items = [b; t] →
  (lower (pattern t) = "solid" ∨ lower (pattern b) = "solid" →
   (OutfitGenerator.generate_outfit items "Any" r).1
   = (Some {| top := Some t; bottom := Some b; dress := None; outerwear := None;
              accessories := []; shoes := None |}, 1%nat))
  ∧ (lower (pattern t) ≠ "solid" → lower (pattern b) ≠ "solid" →
     (OutfitGenerator.generate_outfit items "Any" r).1 = (None, 1000%nat)).
Proof.
  intros Hct Hcb Hbt Hbb Hft Hfb Hitems.
  rewrite (black_pair_generate t b items r) by done.
  pose proof (patterns_match_pair t b) as Hpat.
  destruct (_do_patterns_match [Some t; Some b]).
  - split; [done|]. intros Ht Hb. destruct (proj1 Hpat eq_refl); done.
  - split; [|done]. intros H. by apply Hpat in H.
Qed.

Lemma black_pair_any_witness :
  (OutfitGenerator.generate_outfit [black_jeans; black_tee] "Any" sample_rng).1
  = (Some {| top := Some black_tee; bottom := Some black_jeans; dress := None;
             outerwear := None; accessories := []; shoes := None |}, 1%nat).
Proof.
  apply (black_pair_any black_tee black_jeans [black_jeans; black_tee] sample_rng);
    try reflexivity.
  - right. reflexivity.
  - left. reflexivity.
Defined.

(** C6. An outfit returned by [generate_outfit] has a dress, or both a top and
    a bottom; it never has exactly one of top and bottom; and when it has both,
    their formalities match within tolerance 1 and their colors do not clash. *)
Theorem returned_outfit_has_anchor (items : list Item) (occasion_type : string)
    (r : Rng) (o : Outfit) :
  (OutfitGenerator.generate_outfit items occasion_type r).1.1 = Some o →
  (is_Some (dress o) ∨ (is_Some (top o) ∧ is_Some (bottom o)))
  ∧ (is_Some (top o) ↔ is_Some (bottom o))
  ∧ (∀ t b, top o = Some t → bottom o = Some b →
       _do_formalities_match (Some t) (Some b) 1 = true
       ∧ _do_colors_clash (color t) (color b) = false).
Proof.
  intros H. apply generate_outfit_returned_ok in H as [Htorso _].
  destruct Htorso as [(Hd & Ht & Hb) | (Hd & t & b & Ht & Hb & Hf & Hc)].
  - rewrite Ht, Hb. split; [by left|]. split; [done|]. intros; simplify_eq.
  - rewrite Ht, Hb. split; [right; eauto|]. split; [split; eauto|].
    intros t' b' ? ?. by simplify_eq.
Qed.

Lemma returned_outfit_has_anchor_witness :
  (is_Some (dress sample_outfit)
   ∨ (is_Some (top sample_outfit) ∧ is_Some (bottom sample_outfit)))
  ∧ (is_Some (top sample_outfit) ↔ is_Some (bottom sample_outfit))
  ∧ (∀ t b, top sample_outfit = Some t → bottom sample_outfit = Some b →
       _do_formalities_match (Some t) (Some b) 1 = true
       ∧ _do_colors_clash (color t) (color b) = false).
Proof.
  apply (returned_outfit_has_anchor sample_wardrobe "Any" sample_rng sample_outfit).
  vm_compute. reflexivity.
Defined.

(** C9. An outfit returned by [generate_outfit] carries at most 3 accessories,
    and two accessories at different positions have different ids. *)
Theorem returned_accessories_bounded_distinct (items : list Item)
    (occasion_type : string) (r : Rng) (o : Outfit) :
  (OutfitGenerator.generate_outfit items occasion_type r).1.1 = Some o →
  (length (accessories o) ≤ 3)%nat
  ∧ ∀ (i j : nat) (a a' : Item),
      i ≠ j → accessories o !! i = Some a → accessories o !! j = Some a' →
      item_id a ≠ item_id a'.
Proof.
  intros H. apply generate_outfit_returned_ok in H as (_ & Hnd & Hlen).
  split; [done|]. intros i j a a' Hij Ha Ha' Heq.
  apply Hij. eapply NoDup_lookup; [exact Hnd| |].
  - rewrite list_lookup_fmap, Ha. reflexivity.
  - rewrite list_lookup_fmap, Ha'. simpl. by rewrite Heq.
Qed.

Lemma returned_accessories_bounded_distinct_witness :
  (length (accessories sample_outfit) ≤ 3)%nat
  ∧ ∀ (i j : nat) (a a' : Item),
      i ≠ j → accessories sample_outfit !! i = Some a →
      accessories sample_outfit !! j = Some a' → item_id a ≠ item_id a'.
Proof.
  apply (returned_accessories_bounded_distinct
           sample_wardrobe "Any" sample_rng sample_outfit).
  vm_compute. reflexivity.
Defined.

(** ** Substitution: the validator *)

Lemma hypothetical_set_proposed (current : Outfit) (slot : Slot) (candidate : Item) :
  proposed_outfit_items (current_outfit_copy current slot candidate)
  = hypothetical_set current slot candidate.
Proof. by destruct slot. Qed.

Lemma compatible_with_rest_spec (x : Item) (rest : list Item) :
  compatible_with_rest x rest = true
  ↔ ∀ (j : nat) (y : Item), rest !! j = Some y →
      _do_colors_clash (color x) (color y) = false
      ∧ _do_formalities_match (Some x) (Some y) 1 = true.
Proof.
  induction rest as [|y0 rest IH]; simpl.
  - split; [|done]. intros _ j y Hj. done.
  - destruct (_do_colors_clash (color x) (color y0)) eqn:Ec.
    { split; [done|]. intros H. destruct (H 0%nat y0 eq_refl) as [? _]. congruence. }
    destruct (_do_formalities_match (Some x) (Some y0) 1) eqn:Ef; simpl.
    + rewrite IH. split.
      * intros H [|j] y Hj; simpl in Hj; [by simplify_eq|by apply (H j)].
      * intros H j y Hj. by apply (H (S j)).
    + split; [done|]. intros H. destruct (H 0%nat y0 eq_refl) as [_ ?]. congruence.
Qed.

(** The two nested loops of the dialog check every pair of positions. *)
Lemma pairwise_compatible_spec (l : list Item) :
  pairwise_compatible l = true ↔ all_pairs_compatible l.
Proof.
  unfold all_pairs_compatible. induction l as [|x l IH]; simpl.
  - split; [|done]. intros _ i j x y _ Hi. done.
  - destruct (compatible_with_rest x l) eqn:Ex.
    + rewrite IH. pose proof (proj1 (compatible_with_rest_spec x l) Ex) as Hx.
      split.
      * intros H [|i] [|j] a b Hij Hi Hj; simpl in Hi, Hj; try lia.
        -- simplify_eq. by apply (Hx j).
        -- apply (H i j); [lia|done|done].
      * intros H i j a b Hij Hi Hj. apply (H (S i) (S j)); [lia|done|done].
    + split; [done|]. intros H.
      assert (compatible_with_rest x l = true) as Hx; [|congruence].
      apply compatible_with_rest_spec. intros j y Hj.
      apply (H 0%nat (S j)); [lia|done|done].
Qed.

(** The dialog's loop body, as a conjunction of its four tests. *)
Lemma is_compatible_unfold (generated : Outfit) (slot : Slot) (level : Z)
    (item : Item) :
  is_compatible generated slot level item
  = category_matches item slot
    && _is_item_suitable_for_occasion item level
    && pairwise_compatible (hypothetical_set generated slot item)
    && _do_patterns_match (Some <$> hypothetical_set generated slot item).
Proof.
  unfold is_compatible. rewrite hypothetical_set_proposed.
  destruct (category_matches item slot); [|done].
  destruct (_is_item_suitable_for_occasion item level); [|done].
  destruct (pairwise_compatible _); done.
Qed.

(** What [category_matches] lets through. *)
Lemma category_matches_spec (item : Item) (slot : Slot) :
  category_matches item slot = true
  ↔ lower (category item) = slot_name slot
    ∨ (slot = SlotAccessories ∧ lower (category item) = "accessory").
Proof.
  unfold category_matches.
  assert (lower (slot_name slot) = slot_name slot) as -> by by destruct slot.
  destruct (decide (lower (category item) = slot_name slot)) as [Heq|Hne].
  - rewrite bool_decide_eq_false_2 by (intros H; by apply H). split; [by left|done].
  - rewrite bool_decide_eq_true_2 by done.
    destruct (decide (lower (category item) = "accessory")) as [Ha|Ha].
    + rewrite (bool_decide_eq_true_2 _ Ha), andb_true_r.
      destruct slot; simpl; split; try done; try (by intros [?|[? _]]).
      intros _. by right.
    + rewrite (bool_decide_eq_false_2 _ Ha), andb_false_r.
      split; [done|]. intros [?|[_ ?]]; done.
Qed.

(** On the six categories of the wardrobe, [category_matches] is equality with
    the category of the slot. *)
Lemma category_matches_known (item : Item) (slot : Slot) :
  category item ∈ known_categories →
  category_matches item slot = true ↔ category item = slot_category slot.
Proof.
  intros Hk. rewrite category_matches_spec. unfold known_categories in Hk.
  repeat (apply elem_of_cons in Hk as [Hk|Hk]);
    [..|by apply elem_of_nil in Hk]; rewrite Hk; destruct slot; simpl;
    split; try done; try (by intros [?|[? ?]]); try (by intros _; left);
    try (by intros _; right).
Qed.

(** On an outfit with all six keys: the loop body accepts a candidate exactly
    when its category is the slot's and the three checks pass. *)
Lemma is_compatible_iff (generated : Outfit) (slot : Slot) (level : Z) (item : Item) :
  is_compatible generated slot level item = true
  ↔ (lower (category item) = slot_name slot
     ∨ (slot = SlotAccessories ∧ lower (category item) = "accessory"))
    ∧ three_checks_pass generated slot level item.
Proof.
  unfold three_checks_pass. rewrite is_compatible_unfold, !andb_true_iff.
  rewrite category_matches_spec, pairwise_compatible_spec. tauto.
Qed.

Lemma slot_items_apply_selection (slot : Slot) (item : Item) (o : Outfit) :
  slot_items slot (apply_selection slot item o) = [item].
Proof.
  destruct slot; try done; unfold apply_selection; simpl;
    repeat (case_bool_decide || destruct (_ && _)); done.
Qed.

(** [select_item] leaves the application as it is, or writes one of the items
    the dialog offers. *)
Lemma select_item_applies_offered (app : App) (slot : Slot) (selected_id : option Z)
    (generated : Outfit) :
  generated_outfit app = Some generated →
  select_item app slot selected_id = app
  ∨ ∃ offered item,
      open_change_item_dialog app slot = Some offered ∧ item ∈ offered
      ∧ select_item app slot selected_id
        = set_generated_outfit (apply_selection slot item generated) app.
Proof.
  intros Hg. unfold select_item. rewrite Hg.
  destruct (open_change_item_dialog app slot) as [offered|] eqn:Ho; [|by left].
  destruct selected_id as [sid|]; [|by left].
  destruct (list_find _ offered) as [[k item]|] eqn:Ef; [|by left].
  right. exists offered, item. split; [done|]. split; [|done].
  apply list_find_Some in Ef as (Hk & _ & _). by eapply list_elem_of_lookup_2.
Qed.

Lemma offered_is_compatible (app : App) (slot : Slot) (offered : list Item)
    (item : Item) :
  open_change_item_dialog app slot = Some offered → item ∈ offered →
  ∃ generated, generated_outfit app = Some generated
    ∧ is_compatible generated slot (current_occasion_formal_level app) item = true.
Proof.
  unfold open_change_item_dialog.
  destruct (generated_outfit app) as [generated|]; [|done].
  intros [= <-] Hin. apply list_elem_of_filter in Hin as [Hc _]. eauto.
Qed.

(** ** Torso exclusivity *)

Lemma returned_ok_torso_exclusive (o : Outfit) : returned_ok o → torso_exclusive o.
Proof.
  intros [[(_ & Ht & Hb) | (Hd & _)] _] Hdress; [done|].
  rewrite Hd in Hdress. by destruct Hdress.
Qed.

Lemma apply_selection_dress (item : Item) (o : Outfit) :
  let o' := apply_selection SlotDress item o in
  dress o' = Some item ∧ top o' = None ∧ bottom o' = None.
Proof. done. Qed.

Lemma apply_selection_top_bottom (slot : Slot) (item : Item) (o : Outfit) :
  slot = SlotTop ∨ slot = SlotBottom → is_Some (dress o) →
  dress (apply_selection slot item o) = None.
Proof.
  intros [-> | ->] Hd; unfold apply_selection; simpl;
    by rewrite (bool_decide_eq_true_2 _ Hd).
Qed.

Lemma apply_selection_torso_exclusive (slot : Slot) (item : Item) (o : Outfit) :
  torso_exclusive o → torso_exclusive (apply_selection slot item o).
Proof.
  unfold torso_exclusive, apply_selection. intros Hex.
  destruct slot; simpl; try done.
  - case_bool_decide as Hd; simpl; intros Hd'; [by destruct Hd'|by destruct Hd].
  - case_bool_decide as Hd; simpl; intros Hd'; [by destruct Hd'|by destruct Hd].
  - by rewrite andb_false_r.
  - by rewrite andb_false_r.
Qed.

Lemma app_generate_outfit_torso_exclusive (app : App) (r : Rng) :
  app_torso_exclusive (OutfitMakerApp.generate_outfit app r).1.1.
Proof.
  unfold OutfitMakerApp.generate_outfit.
  destruct (clothing_items app) as [|i items] eqn:E; [by intros o|].
  rewrite <- E. unfold bind.
  destruct (OutfitGenerator.generate_outfit _ _ r) as [[res n] r'] eqn:Eg.
  simpl. destruct res as [o|]; simpl; [|by intros o'].
  intros o' [= <-]. apply returned_ok_torso_exclusive.
  apply (generate_outfit_returned_ok (clothing_items app) (occasion_var app) r).
  by rewrite Eg.
Qed.

Lemma app_step_torso_exclusive (app app' : App) :
  app_step app app' → app_torso_exclusive app → app_torso_exclusive app'.
Proof.
  intros Hstep Hinv. destruct Hstep as [app r|app occasion|app slot selected_id].
  - apply app_generate_outfit_torso_exclusive.
  - exact Hinv.
  - destruct (generated_outfit app) as [generated|] eqn:Hg.
    + destruct (select_item_applies_offered app slot selected_id generated Hg)
        as [-> | (offered & item & _ & _ & ->)]; [done|].
      intros o [= <-]. apply apply_selection_torso_exclusive. by apply Hinv.
    + unfold select_item. by rewrite Hg.
Qed.

(** [select_item] writes the first offered item whose id is the focused one. *)
Lemma select_item_writes_first_offered (app : App) (slot : Slot) (sid : Z)
    (generated : Outfit) (offered before after : list Item) (item : Item) :
  generated_outfit app = Some generated →
  open_change_item_dialog app slot = Some offered →
  offered = before ++ item :: after →
  item_id item = sid → (∀ x, x ∈ before → item_id x ≠ sid) →
  select_item app slot (Some sid)
  = set_generated_outfit (apply_selection slot item generated) app.
Proof.
  intros Hg Ho -> Hid Hbefore. unfold select_item. rewrite Hg, Ho.
  assert (list_find (λ x, item_id x = sid) (before ++ item :: after)
          = Some (length before, item)) as ->; [|done].
  apply list_find_Some. split_and!.
  - by rewrite list_lookup_middle.
  - done.
  - intros j y Hj Hlt. rewrite lookup_app_l in Hj by done.
    apply Hbefore. by eapply list_elem_of_lookup_2.
Qed.

(** C4. No outfit returned by [generate_outfit] has a dress together with a
    top (or a bottom).  When the user selects an offered item in the change
    dialog, [select_item] puts on display the outfit with that item alone in
    the targeted slot: for the dress slot, top and bottom are cleared; for the
    top or the bottom slot while a dress is set, the dress is cleared; and
    dress stays exclusive of top and bottom.  Hence, however the user
    generates outfits, changes the occasion and applies replacements, the
    outfit on display never has a dress together with a top or a bottom. *)
Theorem torso_exclusivity :
  (∀ (items : list Item) (occasion_type : string) (r : Rng) (o : Outfit),
     (OutfitGenerator.generate_outfit items occasion_type r).1.1 = Some o →
     ¬ (is_Some (dress o) ∧ is_Some (top o))
     ∧ ¬ (is_Some (dress o) ∧ is_Some (bottom o)))
  ∧ (∀ (item : Item) (o : Outfit),
       dress (apply_selection SlotDress item o) = Some item
       ∧ top (apply_selection SlotDress item o) = None
       ∧ bottom (apply_selection SlotDress item o) = None)
  ∧ (∀ (slot : Slot) (item : Item) (o : Outfit),
       slot = SlotTop ∨ slot = SlotBottom → is_Some (dress o) →
       dress (apply_selection slot item o) = None)
  ∧ (∀ (slot : Slot) (item : Item) (o : Outfit),
       torso_exclusive o → torso_exclusive (apply_selection slot item o))
  ∧ (∀ (items : list Item) (app : App) (o : Outfit),
       rtc app_step (initial_app items) app →
       generated_outfit app = Some o →
       ¬ (is_Some (dress o) ∧ (is_Some (top o) ∨ is_Some (bottom o))))
  ∧ (∀ (app : App) (slot : Slot) (sid : Z) (generated : Outfit)
       (offered before after : list Item) (item : Item),
       generated_outfit app = Some generated →
       open_change_item_dialog app slot = Some offered →
       offered = before ++ item :: after →
       item_id item = sid → (∀ x, x ∈ before → item_id x ≠ sid) →
       ∃ o' : Outfit,
         generated_outfit (select_item app slot (Some sid)) = Some o'
         ∧ o' = apply_selection slot item generated
         ∧ slot_items slot o' = [item]
         ∧ (slot = SlotDress → top o' = None ∧ bottom o' = None)
         ∧ (slot = SlotTop ∨ slot = SlotBottom → is_Some (dress generated) →
            dress o' = None)
         ∧ (torso_exclusive generated →
            ¬ (is_Some (dress o') ∧ (is_Some (top o') ∨ is_Some (bottom o'))))).
Proof.
  split; [|split; [|split; [|split; [|split]]]].
  - intros items occasion_type r o H.
    apply generate_outfit_returned_ok, returned_ok_torso_exclusive in H.
    split; intros [Hd Hx]; destruct (H Hd) as [Ht Hb];
      [rewrite Ht in Hx | rewrite Hb in Hx]; by destruct Hx.
  - intros item o. apply apply_selection_dress.
  - apply apply_selection_top_bottom.
  - apply apply_selection_torso_exclusive.
  - intros items app o Hreach Hg.
    assert (app_torso_exclusive app) as Hinv.
    { clear Hg. revert app Hreach.
      apply (rtc_ind_r app_torso_exclusive (initial_app items)).
      - by intros o'.
      - intros mid app _ Hlast IH. by eapply app_step_torso_exclusive. }
    intros [Hd Hx]. destruct (Hinv o Hg Hd) as [Ht Hb].
    rewrite Ht, Hb in Hx. destruct Hx as [[] | []]; done.
  - intros app slot sid generated offered before after item Hg Ho Hoff Hid Hbefore.
    exists (apply_selection slot item generated).
    rewrite (select_item_writes_first_offered app slot sid generated offered
               before after item Hg Ho Hoff Hid Hbefore).
    split; [done|]. split; [done|].
    split; [apply slot_items_apply_selection|].
    split; [intros ->; by destruct (apply_selection_dress item generated)
                          as (_ & ? & ?)|].
    split; [apply apply_selection_top_bottom|].
    intros Hex [Hd Hx].
    destruct (apply_selection_torso_exclusive slot item generated Hex Hd)
      as [Ht Hb].
    rewrite Ht, Hb in Hx. destruct Hx as [[] | []]; done.
Qed.

Example sample_app_generated_outfit :
  generated_outfit sample_app_generated = Some tee_and_jeans.
Proof. by vm_compute. Qed.

Example sample_app_outfit : generated_outfit sample_app = Some dress_only.
Proof. by vm_compute. Qed.

Lemma torso_exclusivity_witness :
  (¬ (is_Some (dress sample_outfit) ∧ is_Some (top sample_outfit))
   ∧ ¬ (is_Some (dress sample_outfit) ∧ is_Some (bottom sample_outfit)))
  ∧ ¬ (is_Some (dress dress_only)
       ∧ (is_Some (top dress_only) ∨ is_Some (bottom dress_only)))
  ∧ ∃ o' : Outfit,
      generated_outfit (select_item sample_app_generated SlotDress (Some 13))
      = Some o'
      ∧ o' = apply_selection SlotDress black_dress tee_and_jeans
      ∧ slot_items SlotDress o' = [black_dress]
      ∧ (SlotDress = SlotDress → top o' = None ∧ bottom o' = None)
      ∧ (SlotDress = SlotTop ∨ SlotDress = SlotBottom →
         is_Some (dress tee_and_jeans) → dress o' = None)
      ∧ (torso_exclusive tee_and_jeans →
         ¬ (is_Some (dress o') ∧ (is_Some (top o') ∨ is_Some (bottom o')))).
Proof.
  split; [|split].
  - apply (proj1 torso_exclusivity sample_wardrobe "Any" sample_rng sample_outfit).
    by vm_compute.
  - apply (proj1 (proj2 (proj2 (proj2 (proj2 torso_exclusivity))))
             small_wardrobe sample_app dress_only).
    + eapply rtc_l; [apply (step_generate _ (λ _, 5%nat))|].
      eapply rtc_l; [apply (step_select _ SlotDress (Some 13))|].
      apply rtc_refl.
    + by vm_compute.
  - apply (proj2 (proj2 (proj2 (proj2 (proj2 torso_exclusivity))))
             sample_app_generated SlotDress 13 tee_and_jeans
             [black_dress] [] [] black_dress).
    + by vm_compute.
    + by vm_compute.
    + done.
    + done.
    + intros x Hx. by apply elem_of_nil in Hx.
Defined.

(** * Further properties of the code *)

(** ** Rule engine *)

Lemma lower_ascii_idemp (c : ascii) : lower_ascii (lower_ascii c) = lower_ascii c.
Proof. destruct c as [[] [] [] [] [] [] [] []]; reflexivity. Qed.

Lemma lower_idemp (s : string) : lower (lower s) = lower s.
Proof. induction s as [|c s IH]; simpl; [done|]. by rewrite lower_ascii_idemp, IH. Qed.

(** X2. The color test is case-insensitive: it gives the same answer on the
    two colors and on their lower-cased forms. *)
Theorem colors_clash_case_insensitive (c1 c2 : string) :
  _do_colors_clash c1 c2 = _do_colors_clash (lower c1) (lower c2).
Proof.
  unfold _do_colors_clash. rewrite !do_colors_clash_with_unfold, !lower_idemp.
  assert (∀ c, bool_decide (lower c = "") = bool_decide (c = "")) as Hempty.
  { intros c. apply bool_decide_ext, lower_eq_empty. }
  by rewrite !Hempty.
Qed.

Lemma listed_clash_program (a b : string) :
  listed_clash clashing_colors a b = true →
  a ∈ chromatic_colors ∧ b ∈ chromatic_colors ∧ a ≠ b.
Proof.
  unfold listed_clash. destruct (clashing_colors !! a) as [l|] eqn:E; [|done].
  intros Hb. apply bool_decide_eq_true in Hb.
  apply elem_of_list_to_map_2 in E.
  repeat (apply elem_of_cons in E as [E|E]; [simplify_eq|]);
    [..|by apply elem_of_nil in E];
    repeat (apply elem_of_cons in Hb as [->|Hb]);
    try (by apply elem_of_nil in Hb);
    (split; [known_category|split; [known_category|done]]).
Qed.

(** X3. Only the eight named chromatic colors can clash, and only with a
    different color: an unknown color name never clashes with anything, and
    no color clashes with itself. *)
Theorem clash_only_between_distinct_chromatic_colors :
  (∀ c1 c2 : string,
     _do_colors_clash c1 c2 = true →
     lower c1 ∈ chromatic_colors ∧ lower c2 ∈ chromatic_colors
     ∧ lower c1 ≠ lower c2)
  ∧ (∀ c : string, _do_colors_clash c c = false)
  ∧ (∀ c1 c2 : string,
       lower c1 ∉ chromatic_colors → _do_colors_clash c1 c2 = false
                                      ∧ _do_colors_clash c2 c1 = false).
Proof.
  assert (∀ c1 c2 : string,
     _do_colors_clash c1 c2 = true →
     lower c1 ∈ chromatic_colors ∧ lower c2 ∈ chromatic_colors
     ∧ lower c1 ≠ lower c2) as Hmain.
  { intros c1 c2. unfold _do_colors_clash. rewrite do_colors_clash_with_unfold.
    rewrite !andb_true_iff, orb_true_iff. intros [_ [H|H]];
      apply listed_clash_program in H as (? & ? & ?); done. }
  split; [exact Hmain|split].
  - intros c. destruct (_do_colors_clash c c) eqn:E; [|done].
    apply Hmain in E as (_ & _ & Hne). done.
  - intros c1 c2 Hc1. split.
    + destruct (_do_colors_clash c1 c2) eqn:E; [|done].
      apply Hmain in E as (? & _). done.
    + destruct (_do_colors_clash c2 c1) eqn:E; [|done].
      apply Hmain in E as (_ & ? & _). done.
Qed.

Lemma clash_only_between_distinct_chromatic_colors_witness :
  lower "Red" ∈ chromatic_colors ∧ lower "GREEN" ∈ chromatic_colors
  ∧ lower "Red" ≠ lower "GREEN".
Proof.
  apply (proj1 clash_only_between_distinct_chromatic_colors "Red" "GREEN").
  by vm_compute.
Defined.

(** X4. The formality test is symmetric in its two items, holds between an
    item and itself for any tolerance that is not negative, and holds as soon
    as one item is absent; it is not transitive (casual goes with smart
    casual, smart casual with semi-formal, casual not with semi-formal). *)
Theorem formalities_match_symmetric_reflexive :
  (∀ (item1 item2 : option Item) (tolerance : Z),
     _do_formalities_match item1 item2 tolerance
     = _do_formalities_match item2 item1 tolerance)
  ∧ (∀ (item : Item) (tolerance : Z),
       0 ≤ tolerance → _do_formalities_match (Some item) (Some item) tolerance = true)
  ∧ (∀ (item : option Item) (tolerance : Z),
       _do_formalities_match None item tolerance = true
       ∧ _do_formalities_match item None tolerance = true)
  ∧ (∃ a b c : Item,
       _do_formalities_match (Some a) (Some b) 1 = true
       ∧ _do_formalities_match (Some b) (Some c) 1 = true
       ∧ _do_formalities_match (Some a) (Some c) 1 = false).
Proof.
  split; [|split; [|split]].
  - intros [i1|] [i2|] tolerance; try done. unfold _do_formalities_match.
    f_equal. lia.
  - intros item tolerance Htol. unfold _do_formalities_match.
    apply Z.leb_le. lia.
  - intros [item|] tolerance; done.
  - exists (mkItem 1 "Top" "black" "Solid" "casual" "a"),
           (mkItem 2 "Top" "black" "Solid" "smart casual" "b"),
           (mkItem 3 "Top" "black" "Solid" "semi-formal" "c").
    by vm_compute.
Qed.

Lemma formalities_match_symmetric_reflexive_witness :
  _do_formalities_match (Some black_tee) (Some black_tee) 0 = true.
Proof.
  apply (proj1 (proj2 formalities_match_symmetric_reflexive) black_tee 0). lia.
Defined.

Lemma formality_levels_lookup (f : string) :
  formality_levels !! f
  = if decide (f = "casual") then Some 1
    else if decide (f = "smart casual") then Some 2
    else if decide (f = "semi-formal") then Some 3
    else if decide (f = "formal") then Some 4
    else None.
Proof.
  repeat (case_decide; [by subst|]).
  apply not_elem_of_list_to_map_1. simpl.
  intros Hin. repeat (apply elem_of_cons in Hin as [Hin|Hin]; [done|]).
  by apply elem_of_nil in Hin.
Qed.

(** X5. The formality rank of an item is 1, 2, 3 or 4 for the labels casual,
    smart casual, semi-formal, formal (in any letter case) and 0 for every
    other label; it always lies between 0 and 4. *)
Theorem formality_rank_values (item : Item) :
  0 ≤ formality_rank item ≤ 4
  ∧ (formality_rank item = 1 ↔ lower (formality item) = "casual")
  ∧ (formality_rank item = 2 ↔ lower (formality item) = "smart casual")
  ∧ (formality_rank item = 3 ↔ lower (formality item) = "semi-formal")
  ∧ (formality_rank item = 4 ↔ lower (formality item) = "formal")
  ∧ (formality_rank item = 0
     ↔ lower (formality item) ∉ ["casual"; "smart casual"; "semi-formal"; "formal"]).
Proof.
  unfold formality_rank. rewrite formality_levels_lookup.
  generalize (lower (formality item)). intros f.
  assert (∀ x : string, x ∈ ["casual"; "smart casual"; "semi-formal"; "formal"]
            ↔ x = "casual" ∨ x = "smart casual" ∨ x = "semi-formal" ∨ x = "formal")
    as Hlist.
  { intros x. rewrite !elem_of_cons, elem_of_nil. tauto. }
  rewrite Hlist.
  repeat case_decide; subst; simpl; (split; [lia|]);
    repeat split; try done; try lia; intros; try tauto;
    repeat match goal with H : _ ∨ _ |- _ => destruct H end; done.
Qed.

Lemma occasion_levels :
  default 0 (occasion_formality_map !! "Any") = 0
  ∧ default 0 (occasion_formality_map !! "Casual Day Out") = 1
  ∧ default 0 (occasion_formality_map !! "Work/Office") = 2
  ∧ default 0 (occasion_formality_map !! "Date Night") = 2
  ∧ default 0 (occasion_formality_map !! "Party") = 3
  ∧ default 0 (occasion_formality_map !! "Formal Event") = 4.
Proof. repeat split; reflexivity. Qed.

(** X6. Which items each occasion lets through the filter, by lower-cased
    formality label: every item for "Any" and for a label that is not in the
    map; for "Casual Day Out" everything but semi-formal and formal (an
    unrecognised label ranks 0 and passes); casual to semi-formal for
    "Work/Office" and "Date Night"; smart casual to formal for "Party";
    semi-formal and formal for "Formal Event". *)
Theorem occasion_filter_by_label (item : Item) :
  (∀ occasion : string,
     occasion_formality_map !! occasion = None → suitable_for occasion item = true)
  ∧ suitable_for "Any" item = true
  ∧ (suitable_for "Casual Day Out" item = true
     ↔ lower (formality item) ∉ ["semi-formal"; "formal"])
  ∧ (suitable_for "Work/Office" item = true
     ↔ lower (formality item) ∈ ["casual"; "smart casual"; "semi-formal"])
  ∧ (suitable_for "Date Night" item = true
     ↔ lower (formality item) ∈ ["casual"; "smart casual"; "semi-formal"])
  ∧ (suitable_for "Party" item = true
     ↔ lower (formality item) ∈ ["smart casual"; "semi-formal"; "formal"])
  ∧ (suitable_for "Formal Event" item = true
     ↔ lower (formality item) ∈ ["semi-formal"; "formal"]).
Proof.
  destruct occasion_levels as (L0 & L1 & L2 & L2' & L3 & L4).
  split; [intros occasion Hocc; unfold suitable_for; by rewrite Hocc|].
  unfold suitable_for. rewrite L0, L1, L2, L2', L3, L4.
  unfold _is_item_suitable_for_occasion, formality_rank.
  rewrite formality_levels_lookup.
  generalize (lower (formality item)). intros f.
  rewrite !elem_of_cons, !elem_of_nil.
  repeat case_decide; subst; simpl;
    repeat split; try done; intros; try tauto;
    repeat match goal with H : _ ∨ _ |- _ => destruct H end; try done;
    try (exfalso; tauto);
    intros Hor; repeat (destruct Hor as [Hor|Hor]; [done|]); done.
Qed.

Lemma occasion_filter_by_label_witness :
  suitable_for "Wedding" green_skirt = true.
Proof.
  apply (proj1 (occasion_filter_by_label green_skirt) "Wedding"). reflexivity.
Defined.

Lemma patterned_items_count_submseteq (l1 l2 : list (option Item)) :
  l1 ⊆+ l2 → (patterned_items_count l1 ≤ patterned_items_count l2)%nat.
Proof.
  induction 1 as [|x l1 l2 _ IH|x y l|x l1 l2 _ IH|l1 l2 l3 _ IH1 _ IH2]; simpl.
  - lia.
  - destruct x as [i|]; [case_bool_decide|]; lia.
  - destruct x as [i|], y as [j|]; repeat case_bool_decide; lia.
  - destruct x as [i|]; [case_bool_decide|]; lia.
  - lia.
Qed.

Lemma patterns_match_Permutation (l1 l2 : list (option Item)) :
  l1 ≡ₚ l2 → _do_patterns_match l1 = _do_patterns_match l2.
Proof.
  intros Hp. unfold _do_patterns_match.
  assert (patterned_items_count l1 = patterned_items_count l2) as ->; [|done].
  apply Nat.le_antisymm; apply patterned_items_count_submseteq; by rewrite Hp.
Qed.

Lemma patterns_match_submseteq (l1 l2 : list (option Item)) :
  l1 ⊆+ l2 → _do_patterns_match l2 = true → _do_patterns_match l1 = true.
Proof.
  intros Hsub. unfold _do_patterns_match. rewrite !bool_decide_eq_true.
  pose proof (patterned_items_count_submseteq l1 l2 Hsub). lia.
Qed.

(** X7. The pattern rule depends only on which items are present, not on
    their order, and it is inherited by every sub-collection: removing items
    from a set that passes never makes it fail. *)
Theorem patterns_match_order_and_subsets :
  (∀ l1 l2 : list (option Item),
     l1 ≡ₚ l2 → _do_patterns_match l1 = _do_patterns_match l2)
  ∧ (∀ l1 l2 : list (option Item),
       l1 ⊆+ l2 → _do_patterns_match l2 = true → _do_patterns_match l1 = true).
Proof. split; [apply patterns_match_Permutation | apply patterns_match_submseteq]. Qed.

Lemma patterns_match_order_and_subsets_witness :
  _do_patterns_match [Some black_jeans; Some black_tee]
  = _do_patterns_match [Some black_tee; Some black_jeans]
  ∧ _do_patterns_match [Some black_jeans] = true.
Proof.
  split.
  - apply (proj1 patterns_match_order_and_subsets). apply Permutation_swap.
  - apply (proj2 patterns_match_order_and_subsets
             [Some black_jeans] [Some black_tee; Some black_jeans]).
    + apply submseteq_cons. done.
    + by vm_compute.
Defined.

(** ** The catalog view *)

(** X8. The catalog view built by the constructor has exactly the six
    category keys; each one holds the catalog items of that category in
    catalog order, and items of any other category are left out. *)
Theorem categories_view (items : list Item) :
  dom (categories items) = list_to_set known_categories
  ∧ (∀ c : string, c ∈ known_categories →
       categories items !! c = Some (filter (λ item, category item = c) items))
  ∧ (∀ (c : string) (item : Item),
       item ∈ categories items !!! c → item ∈ items ∧ category item = c).
Proof.
  assert (dom (categories items) = list_to_set known_categories) as Hdom.
  { apply set_eq. intros c. unfold categories.
    rewrite elem_of_dom, foldl_add_to_category_lookup, fmap_is_Some.
    rewrite <- elem_of_dom. unfold init_categories.
    by rewrite dom_list_to_map_L. }
  assert (∀ c : string, c ∈ known_categories →
       categories items !! c = Some (filter (λ item, category item = c) items))
    as Hlook.
  { intros c Hc. unfold categories. rewrite foldl_add_to_category_lookup.
    assert (init_categories !! c = Some []) as ->; [|done].
    unfold known_categories in Hc.
    repeat (apply elem_of_cons in Hc as [->|Hc]; [by vm_compute|]).
    by apply elem_of_nil in Hc. }
  split; [done|split; [done|]].
  intros c item Hin. rewrite lookup_total_alt in Hin.
  destruct (decide (c ∈ known_categories)) as [Hc|Hc].
  - rewrite (Hlook c Hc) in Hin. simpl in Hin.
    by apply list_elem_of_filter in Hin as [? ?].
  - assert (categories items !! c = None) as Hnone.
    { apply not_elem_of_dom. rewrite Hdom. by rewrite elem_of_list_to_set. }
    rewrite Hnone in Hin. simpl in Hin. by apply elem_of_nil in Hin.
Qed.

Lemma categories_view_witness :
  categories sample_wardrobe !! "Accessory"
  = Some (filter (λ item, category item = "Accessory") sample_wardrobe).
Proof.
  apply (proj1 (proj2 (categories_view sample_wardrobe)) "Accessory").
  known_category.
Defined.

(** ** The search: what every returned outfit satisfies *)

Lemma has_post_conj {A} (m : M A) (P Q : A → Prop) :
  has_post m P → has_post m Q → has_post m (λ a, P a ∧ Q a).
Proof. intros HP HQ r. split; [apply HP | apply HQ]. Qed.

Lemma get_random_element_member {A} (arr : list A) :
  has_post (_get_random_element arr) (λ x, ∀ a, x = Some a → a ∈ arr).
Proof.
  eapply has_post_weaken; [apply get_random_element_post|].
  intros [a|] H a' Ha'; by simplify_eq.
Qed.

Lemma select_torso_inv cats level :
  has_post (select_torso cats level)
    (λ x, match x with
          | Some (o, sel) =>
              attempt_inv cats level (o, sel) ∧ outerwear o = None
              ∧ shoes o = None ∧ accessories o = [] ∧ sel ≠ []
          | None => True
          end).
Proof.
  unfold select_torso.
  eapply has_post_bind; [apply has_post_true|]. intros roll _.
  eapply (has_post_bind _ _
    (λ st : Outfit * list Item * bool,
       st = (empty_outfit, [], false)
       ∨ ∃ d, d ∈ available cats level "Dress"
              ∧ st = (set_dress (Some d) empty_outfit, [d], true))).
  - destruct roll; [|apply has_post_ret; by left].
    eapply has_post_bind; [apply get_random_element_member|]. intros [d|] Hd.
    + apply has_post_ret. right. exists d. split; [by apply Hd|done].
    + apply has_post_ret. by left.
  - intros st [-> | (d & Hd & ->)]; simpl.
    + eapply has_post_bind; [apply get_random_element_member|]. intros t Ht.
      eapply has_post_bind; [apply get_random_element_member|]. intros b Hb.
      destruct t as [t|], b as [b|]; simpl; try by apply has_post_ret.
      destruct (negb _ || _); apply has_post_ret; [done|].
      split; [|done]. unfold attempt_inv, drawn_from, extras_accepted. simpl.
      split_and!; try done; intros x Hx; simplify_eq; eauto.
      all: by apply elem_of_nil in Hx.
    + apply has_post_ret. split; [|done].
      unfold attempt_inv, drawn_from, extras_accepted. simpl.
      split_and!; try done; intros x Hx; simplify_eq; eauto.
      all: by apply elem_of_nil in Hx.
Qed.

Lemma select_outerwear_inv cats level (o : Outfit) (sel : list Item) :
  attempt_inv cats level (o, sel) → outerwear o = None →
  has_post (select_outerwear cats level (o, sel))
    (λ st, attempt_inv cats level st ∧ shoes st.1 = shoes o
           ∧ accessories st.1 = accessories o).
Proof.
  intros (Hdrawn & Hacc & Hsel) Hnone. simpl in *. unfold select_outerwear.
  destruct (available cats level "Outerwear") eqn:Eav;
    [by apply has_post_ret|]. rewrite <- Eav. clear Eav.
  eapply has_post_bind; [apply get_random_element_member|]. intros [p|] Hp;
    [|by apply has_post_ret].
  destruct (accepts (base_item o) p) eqn:Eacc; [|by apply has_post_ret].
  apply has_post_ret. split; [|done].
  destruct Hdrawn as (D1 & D2 & D3 & D4 & D5 & D6).
  destruct Hacc as (A1 & A2 & A3).
  split; [|split]; simpl.
  - unfold drawn_from. simpl. split_and!; try done; intros x [= <-]; by apply Hp.
  - unfold extras_accepted. simpl. split_and!; try done; by intros x [= <-].
  - rewrite Hsel. unfold proposed_outfit_items. simpl. rewrite Hnone. simpl.
    solve_Permutation.
Qed.

Lemma select_shoes_inv cats level (o : Outfit) (sel : list Item) :
  attempt_inv cats level (o, sel) → shoes o = None →
  has_post (select_shoes cats level (o, sel))
    (λ st, attempt_inv cats level st ∧ accessories st.1 = accessories o).
Proof.
  intros (Hdrawn & Hacc & Hsel) Hnone. simpl in *. unfold select_shoes.
  destruct (available cats level "Shoes") eqn:Eav;
    [by apply has_post_ret|]. rewrite <- Eav. clear Eav.
  eapply has_post_bind; [apply get_random_element_member|]. intros [p|] Hp;
    [|by apply has_post_ret].
  destruct (accepts (base_item_for_shoes o) p) eqn:Eacc; [|by apply has_post_ret].
  apply has_post_ret. split; [|done].
  destruct Hdrawn as (D1 & D2 & D3 & D4 & D5 & D6).
  destruct Hacc as (A1 & A2 & A3).
  split; [|split]; simpl.
  - unfold drawn_from. simpl. split_and!; try done; intros x [= <-]; by apply Hp.
  - unfold extras_accepted. simpl. split_and!; try done; by intros x [= <-].
  - rewrite Hsel. unfold proposed_outfit_items. simpl. rewrite Hnone. simpl.
    solve_Permutation.
Qed.

Lemma accessories_loop_inv cats level (n : nat) :
  ∀ st : Outfit * list Item * gset Z,
    attempt_inv cats level st.1 →
    has_post (accessories_loop cats level n st)
      (λ st', attempt_inv cats level st'.1).
Proof.
  induction n as [|n IH]; intros [[o sel] ids] Hinv; simpl.
  - by apply has_post_ret.
  - eapply has_post_bind; [apply get_random_element_member|]. intros acc Hmem.
    apply IH. destruct acc as [a|]; [|done].
    destruct (bool_decide (item_id a ∉ ids) && accepts (base_item o) a) eqn:E;
      [|done].
    apply andb_true_iff in E as [_ Eacc].
    destruct Hinv as (Hdrawn & Hacc & Hsel). simpl in *.
    destruct Hdrawn as (D1 & D2 & D3 & D4 & D5 & D6).
    destruct Hacc as (A1 & A2 & A3).
    split; [|split]; simpl.
    + unfold drawn_from. simpl. split_and!; try done.
      intros x Hx. apply elem_of_app in Hx as [Hx|Hx]; [by apply D6|].
      apply list_elem_of_singleton in Hx. subst x. by apply Hmem.
    + unfold extras_accepted. simpl. split_and!; try done.
      intros x Hx. apply elem_of_app in Hx as [Hx|Hx]; [by apply A3|].
      apply list_elem_of_singleton in Hx. by subst x.
    + rewrite Hsel. unfold proposed_outfit_items. simpl. solve_Permutation.
Qed.

Lemma select_accessories_inv cats level (o : Outfit) (sel : list Item) :
  attempt_inv cats level (o, sel) →
  has_post (select_accessories cats level (o, sel)) (attempt_inv cats level).
Proof.
  intros Hinv. unfold select_accessories.
  destruct (available cats level "Accessory") eqn:Eav;
    [by apply has_post_ret|]. rewrite <- Eav. clear Eav.
  eapply has_post_bind; [apply has_post_true|]. intros num _.
  eapply has_post_bind; [by apply (accessories_loop_inv cats level num (o, sel, ∅))|].
  intros [[o' sel'] ids'] Hinv'. by apply has_post_ret.
Qed.

(** An attempt never takes the [return None] exit, and an outfit it returns
    satisfies the invariant and the pattern rule. *)
Lemma attempt_inv_post cats level :
  has_post (attempt cats level)
    (λ s, match s with
          | ReturnOutfit o =>
              drawn_from cats level o ∧ extras_accepted o
              ∧ _do_patterns_match (Some <$> proposed_outfit_items o) = true
          | ReturnNone => False
          | Continue => True
          end).
Proof.
  unfold attempt.
  eapply has_post_bind; [apply select_torso_inv|].
  intros [[o sel]|] Ht; [|by apply has_post_ret].
  destruct Ht as (Hinv & Hout & Hshoes & Hacc & Hsel).
  destruct sel as [|s0 sel]; [done|].
  eapply has_post_bind; [by apply select_outerwear_inv|].
  intros [o1 sel1] (Hinv1 & Hs1 & Ha1). simpl in Hs1, Ha1.
  eapply has_post_bind; [apply select_shoes_inv; [done|congruence]|].
  intros [o2 sel2] (Hinv2 & Ha2). simpl in Ha2.
  eapply has_post_bind; [by apply select_accessories_inv|].
  intros [o3 sel3] (Hd3 & He3 & Hp3). simpl in *.
  destruct (_do_patterns_match (Some <$> sel3)) eqn:Epat;
    apply has_post_ret; [|done].
  split; [done|]. split; [done|].
  rewrite <- Epat. apply patterns_match_Permutation. by rewrite Hp3.
Qed.

Lemma generate_outfit_inv items occasion_type (r : Rng) (o : Outfit) :
  (OutfitGenerator.generate_outfit items occasion_type r).1.1 = Some o →
  let level := default 0 (occasion_formality_map !! occasion_type) in
  drawn_from (categories items) level o ∧ extras_accepted o
  ∧ _do_patterns_match (Some <$> proposed_outfit_items o) = true.
Proof.
  intros H level. unfold OutfitGenerator.generate_outfit in H.
  pose proof (attempts_loop_post (categories items) level
                (λ o, drawn_from (categories items) level o ∧ extras_accepted o
                      ∧ _do_patterns_match (Some <$> proposed_outfit_items o) = true))
    as Hloop.
  assert (has_post (attempt (categories items) level)
            (λ s, match s with
                  | ReturnOutfit o =>
                      drawn_from (categories items) level o ∧ extras_accepted o
                      ∧ _do_patterns_match (Some <$> proposed_outfit_items o) = true
                  | _ => True
                  end)) as Hattempt.
  { eapply has_post_weaken; [apply attempt_inv_post|]. by intros [| |o']. }
  specialize (Hloop Hattempt max_attempts 0%nat r). cbv beta in Hloop.
  fold level in H. by rewrite H in Hloop.
Qed.

Lemma elem_of_option_list_item (mx : option Item) (x : Item) :
  x ∈ option_list mx ↔ mx = Some x.
Proof.
  destruct mx as [y|]; simpl.
  - rewrite list_elem_of_singleton. split; congruence.
  - rewrite elem_of_nil. split; [done|congruence].
Qed.

Lemma available_member (items : list Item) (level : Z) (c : string) (x : Item) :
  x ∈ available (categories items) level c →
  x ∈ items ∧ category x = c ∧ _is_item_suitable_for_occasion x level = true.
Proof.
  unfold available. intros Hx. apply list_elem_of_filter in Hx as [Hs Hx].
  rewrite lookup_total_alt in Hx.
  destruct (categories items !! c) as [l|] eqn:E; simpl in Hx;
    [|by apply elem_of_nil in Hx].
  unfold categories in E. rewrite foldl_add_to_category_lookup in E.
  destruct (init_categories !! c) as [l0|] eqn:E0; [|done].
  assert (l0 = []) as ->.
  { apply elem_of_list_to_map_2 in E0.
    repeat (apply elem_of_cons in E0 as [E0|E0]; [by simplify_eq|]).
    by apply elem_of_nil in E0. }
  simpl in E. simplify_eq. by apply list_elem_of_filter in Hx as [? ?].
Qed.

(** X9. Every item of an outfit returned by [generate_outfit] is an item of
    the catalog, sits in the slot of its own category, and passes the filter
    of the occasion the outfit was generated for. *)
Theorem returned_items_from_catalog (items : list Item) (occasion_type : string)
    (r : Rng) (o : Outfit) :
  (OutfitGenerator.generate_outfit items occasion_type r).1.1 = Some o →
  ∀ (slot : Slot) (x : Item),
    x ∈ slot_items slot o →
    x ∈ items ∧ category x = slot_category slot
    ∧ suitable_for occasion_type x = true.
Proof.
  intros H slot x Hx.
  apply generate_outfit_inv in H as ((D1 & D2 & D3 & D4 & D5 & D6) & _ & _).
  unfold suitable_for.
  destruct slot; simpl in Hx; try (apply elem_of_option_list_item in Hx);
    apply available_member; eauto.
Qed.

Lemma returned_items_from_catalog_witness :
  grey_boots ∈ sample_wardrobe ∧ category grey_boots = slot_category SlotShoes
  ∧ suitable_for "Any" grey_boots = true.
Proof.
  apply (returned_items_from_catalog sample_wardrobe "Any" sample_rng sample_outfit).
  - by vm_compute.
  - apply (bool_decide_unpack _). by vm_compute.
Defined.

Lemma accepts_spec (base : option Item) (x : Item) :
  accepts base x = true
  ↔ ∃ b, base = Some b
      ∧ _do_formalities_match (Some b) (Some x) 1 = true
      ∧ _do_colors_clash (color b) (color x) = false.
Proof.
  destruct base as [b|]; simpl.
  - rewrite andb_true_iff, negb_true_iff. split.
    + intros [? ?]. by exists b.
    + intros (b' & [= <-] & ? & ?). done.
  - split; [done|]. by intros (b' & ? & _).
Qed.

(** X10. In a returned outfit the outerwear and every accessory match the
    formality of the anchor (the dress, else the top) within 1 and do not
    clash with its color; the shoes do so with respect to the dress, else
    the bottom. *)
Theorem returned_extras_go_with_anchor (items : list Item) (occasion_type : string)
    (r : Rng) (o : Outfit) :
  (OutfitGenerator.generate_outfit items occasion_type r).1.1 = Some o →
  (∀ x, outerwear o = Some x ∨ x ∈ accessories o →
     ∃ anchor, (dress o = Some anchor ∨ (dress o = None ∧ top o = Some anchor))
       ∧ _do_formalities_match (Some anchor) (Some x) 1 = true
       ∧ _do_colors_clash (color anchor) (color x) = false)
  ∧ (∀ x, shoes o = Some x →
       ∃ anchor, (dress o = Some anchor ∨ (dress o = None ∧ bottom o = Some anchor))
         ∧ _do_formalities_match (Some anchor) (Some x) 1 = true
         ∧ _do_colors_clash (color anchor) (color x) = false).
Proof.
  intros H. pose proof (generate_outfit_returned_ok _ _ _ _ H) as [Htorso _].
  apply generate_outfit_inv in H as (_ & (A1 & A2 & A3) & _).
  split.
  - intros x Hx.
    assert (accepts (base_item o) x = true) as Hacc
      by (destruct Hx; [by apply A1 | by apply A3]).
    apply accepts_spec in Hacc as (b & Hb & ? & ?). exists b. split; [|done].
    unfold base_item in Hb. destruct (dress o); simplify_eq; [by left|by right].
  - intros x Hx. apply A2, accepts_spec in Hx as (b & Hb & ? & ?).
    exists b. split; [|done]. unfold base_item_for_shoes in Hb.
    destruct Htorso as [(Hd & _) | (Hd & t & b' & Ht & Hb' & _)].
    + destruct Hd as [d Hd]. rewrite Hd in *. simplify_eq. by left.
    + rewrite Hd, Hb' in *. simplify_eq. by right.
Qed.

Lemma returned_extras_go_with_anchor_witness :
  (∀ x, outerwear sample_outfit = Some x ∨ x ∈ accessories sample_outfit →
     ∃ anchor, (dress sample_outfit = Some anchor
                ∨ (dress sample_outfit = None ∧ top sample_outfit = Some anchor))
       ∧ _do_formalities_match (Some anchor) (Some x) 1 = true
       ∧ _do_colors_clash (color anchor) (color x) = false)
  ∧ (∀ x, shoes sample_outfit = Some x →
       ∃ anchor, (dress sample_outfit = Some anchor
                  ∨ (dress sample_outfit = None ∧ bottom sample_outfit = Some anchor))
         ∧ _do_formalities_match (Some anchor) (Some x) 1 = true
         ∧ _do_colors_clash (color anchor) (color x) = false).
Proof.
  apply (returned_extras_go_with_anchor
           sample_wardrobe "Any" sample_rng sample_outfit).
  by vm_compute.
Defined.

(** X11. A returned outfit passes the pattern rule as a whole: among all its
    items (torso, outerwear, shoes, accessories) at most one has a pattern
    other than solid. *)
Theorem returned_outfit_passes_pattern_rule (items : list Item)
    (occasion_type : string) (r : Rng) (o : Outfit) :
  (OutfitGenerator.generate_outfit items occasion_type r).1.1 = Some o →
  _do_patterns_match (Some <$> proposed_outfit_items o) = true
  ∧ (length (filter (λ x, lower (pattern x) ≠ "solid") (proposed_outfit_items o))
     ≤ 1)%nat.
Proof.
  intros H. apply generate_outfit_inv in H as (_ & _ & Hpat).
  split; [done|]. unfold _do_patterns_match in Hpat.
  apply bool_decide_eq_true in Hpat.
  assert (∀ l : list Item,
            patterned_items_count (Some <$> l)
            = length (filter (λ x, lower (pattern x) ≠ "solid") l)) as Hcount.
  { induction l as [|x l IH]; [done|]. rewrite fmap_cons, filter_cons.
    cbn [patterned_items_count]. rewrite IH.
    case_bool_decide; case_decide; done. }
  by rewrite <- Hcount.
Qed.

Lemma returned_outfit_passes_pattern_rule_witness :
  _do_patterns_match (Some <$> proposed_outfit_items sample_outfit) = true
  ∧ (length (filter (λ x, lower (pattern x) ≠ "solid")
               (proposed_outfit_items sample_outfit)) ≤ 1)%nat.
Proof.
  apply (returned_outfit_passes_pattern_rule
           sample_wardrobe "Any" sample_rng sample_outfit).
  by vm_compute.
Defined.

(** ** The search: attempts and failure *)

Lemma attempts_loop_count cats level :
  ∀ (remaining attempts : nat),
    has_post (attempts_loop cats level remaining attempts)
      (λ res, match res.1 with
              | None => res.2 = (attempts + remaining)%nat
              | Some _ => (attempts < res.2 ≤ attempts + remaining)%nat
              end).
Proof.
  induction remaining as [|k IH]; intros attempts; simpl.
  - apply has_post_ret. simpl. lia.
  - eapply has_post_bind; [apply attempt_inv_post|]. intros [| |o] Hs.
    + eapply has_post_weaken; [apply IH|]. intros [[o|] n]; simpl; lia.
    + done.
    + apply has_post_ret. simpl. lia.
Qed.

(** X12. [generate_outfit] gives up only after the whole budget: when it
    returns [None] exactly 1000 attempts were made (the [return None] inside
    the loop is never taken), and when it returns an outfit between 1 and
    1000 attempts were made. *)
Theorem generate_attempt_count (items : list Item) (occasion_type : string)
    (r : Rng) :
  match (OutfitGenerator.generate_outfit items occasion_type r).1 with
  | (None, attempts) => attempts = 1000%nat
  | (Some _, attempts) => (1 ≤ attempts ≤ 1000)%nat
  end.
Proof.
  unfold OutfitGenerator.generate_outfit.
  pose proof (attempts_loop_count (categories items)
                (default 0 (occasion_formality_map !! occasion_type))
                max_attempts 0%nat r) as H.
  cbv beta in H.
  destruct (attempts_loop _ _ _ _ r).1 as [[o|] n]; simpl in H.
  - change max_attempts with 1000%nat in H. lia.
  - done.
Qed.

(** X13. An outfit needs an anchor from the catalog: when no dress passes the
    occasion filter, and no top and bottom that pass it go together (formality
    within 1, colors not clashing), [generate_outfit] returns [None] after
    1000 attempts, whatever else the catalog holds and whatever the draws. *)
Theorem no_anchor_no_outfit (items : list Item) (occasion_type : string) (r : Rng) :
  (∀ d, d ∈ items → category d = "Dress" →
     suitable_for occasion_type d = false) →
  (∀ t b, t ∈ items → b ∈ items → category t = "Top" → category b = "Bottom" →
     suitable_for occasion_type t = true → suitable_for occasion_type b = true →
     _do_formalities_match (Some t) (Some b) 1 = false
     ∨ _do_colors_clash (color t) (color b) = true) →
  (OutfitGenerator.generate_outfit items occasion_type r).1 = (None, 1000%nat).
Proof.
  unfold suitable_for. intros Hdress Hpair.
  unfold OutfitGenerator.generate_outfit.
  rewrite attempts_loop_all_continue; [done|].
  apply attempt_without_anchor.
  - destruct (available _ _ "Dress") as [|d l] eqn:E; [done|].
    assert (d ∈ available (categories items)
              (default 0 (occasion_formality_map !! occasion_type)) "Dress")
      as Hd by (rewrite E; apply list_elem_of_here).
    apply available_member in Hd as (Hin & Hcat & Hs).
    rewrite (Hdress d Hin Hcat) in Hs. done.
  - intros t b Ht Hb.
    apply available_member in Ht as (? & ? & ?).
    apply available_member in Hb as (? & ? & ?).
    by apply Hpair.
Qed.

Lemma no_anchor_no_outfit_witness :
  (OutfitGenerator.generate_outfit
     [grey_boots; white_scarf; black_tee; grey_coat] "Party" sample_rng).1
  = (None, 1000%nat).
Proof.
  apply (no_anchor_no_outfit [grey_boots; white_scarf; black_tee; grey_coat]).
  - intros d Hd Hcat.
    repeat (apply elem_of_cons in Hd as [->|Hd]; [done|]).
    by apply elem_of_nil in Hd.
  - intros t b Ht Hb Hct Hcb.
    repeat (apply elem_of_cons in Hb as [->|Hb]; [done|]).
    by apply elem_of_nil in Hb.
Defined.

(** With one candidate in each of the top, bottom, outerwear and shoes pools
    and no dress or accessory, an attempt is determined. *)
Lemma attempt_single_each cats level (t b ow sh : Item) :
  available cats level "Dress" = [] →
  available cats level "Top" = [t] →
  available cats level "Bottom" = [b] →
  available cats level "Outerwear" = [ow] →
  available cats level "Shoes" = [sh] →
  available cats level "Accessory" = [] →
  _do_formalities_match (Some t) (Some b) 1 = true →
  _do_colors_clash (color t) (color b) = false →
  accepts (Some t) ow = true →
  accepts (Some b) sh = true →
  _do_patterns_match (Some <$> [t; b; ow; sh]) = true →
  has_post (attempt cats level)
    (λ s, s = ReturnOutfit {| top := Some t; bottom := Some b; dress := None;
                              outerwear := Some ow; accessories := [];
                              shoes := Some sh |}).
Proof.
  intros Hd Ht Hb Ho Hs Ha Hfm Hcl Hacc_ow Hacc_sh Hpat. unfold attempt.
  eapply (has_post_bind _ _ (λ x, x = Some (pair_outfit t b, [t; b]))).
  - unfold select_torso. rewrite Hd, Ht, Hb.
    eapply (has_post_bind _ _ (λ x, x = false)); [by apply has_post_ret|].
    intros ? ->.
    eapply (has_post_bind _ _ (λ x, x = (empty_outfit, [], false)));
      [by apply has_post_ret|].
    intros ? ->. simpl negb. cbv iota.
    eapply has_post_bind; [apply get_random_element_singleton|]. intros ? ->.
    eapply has_post_bind; [apply get_random_element_singleton|]. intros ? ->.
    rewrite Hfm, Hcl. by apply has_post_ret.
  - intros ? ->.
    eapply (has_post_bind _ _
      (λ x, x = (set_outerwear (Some ow) (pair_outfit t b), [t; b; ow]))).
    { unfold select_outerwear. rewrite Ho.
      eapply has_post_bind; [apply get_random_element_singleton|]. intros ? ->.
      change (base_item (pair_outfit t b)) with (Some t). rewrite Hacc_ow.
      by apply has_post_ret. }
    intros ? ->.
    eapply (has_post_bind _ _
      (λ x, x = (set_shoes (Some sh) (set_outerwear (Some ow) (pair_outfit t b)),
                 [t; b; ow; sh]))).
    { unfold select_shoes. rewrite Hs.
      eapply has_post_bind; [apply get_random_element_singleton|]. intros ? ->.
      change (base_item_for_shoes (set_outerwear (Some ow) (pair_outfit t b)))
        with (Some b).
      rewrite Hacc_sh. by apply has_post_ret. }
    intros ? ->.
    eapply (has_post_bind _ _
      (λ x, x = (set_shoes (Some sh) (set_outerwear (Some ow) (pair_outfit t b)),
                 [t; b; ow; sh]))).
    { unfold select_accessories. rewrite Ha. by apply has_post_ret. }
    intros ? ->. cbn [fst snd]. rewrite Hpat. by apply has_post_ret.
Qed.

(** X14. Outerwear is tested against the top and shoes against the bottom,
    never against each other: with one candidate per pool (top, bottom,
    outerwear, shoes; no dress, no accessory) that pass those tests and the
    pattern rule, [generate_outfit] returns all four at the first attempt,
    whether or not the outerwear and the shoes go together. *)
Theorem extras_not_checked_against_each_other (items : list Item)
    (occasion_type : string) (r : Rng) (t b ow sh : Item) :
  let level := default 0 (occasion_formality_map !! occasion_type) in
  available (categories items) level "Dress" = [] →
  available (categories items) level "Top" = [t] →
  available (categories items) level "Bottom" = [b] →
  available (categories items) level "Outerwear" = [ow] →
  available (categories items) level "Shoes" = [sh] →
  available (categories items) level "Accessory" = [] →
  _do_formalities_match (Some t) (Some b) 1 = true →
  _do_colors_clash (color t) (color b) = false →
  _do_formalities_match (Some t) (Some ow) 1 = true →
  _do_colors_clash (color t) (color ow) = false →
  _do_formalities_match (Some b) (Some sh) 1 = true →
  _do_colors_clash (color b) (color sh) = false →
  _do_patterns_match (Some <$> [t; b; ow; sh]) = true →
  (OutfitGenerator.generate_outfit items occasion_type r).1
  = (Some {| top := Some t; bottom := Some b; dress := None;
             outerwear := Some ow; accessories := []; shoes := Some sh |},
     1%nat).
Proof.
  intros level Hd Ht Hb Ho Hs Ha Hfm Hcl Hfo Hco Hfs Hcs Hpat.
  unfold OutfitGenerator.generate_outfit. fold level.
  change max_attempts with (S 999).
  rewrite (attempts_loop_first_returns _ _ _
             (attempt_single_each _ _ t b ow sh Hd Ht Hb Ho Hs Ha Hfm Hcl
                ltac:(apply accepts_spec; eauto) ltac:(apply accepts_spec; eauto)
                Hpat)).
  done.
Qed.

Lemma extras_not_checked_against_each_other_witness :
  _do_colors_clash (color red_coat) (color green_boots) = true
  ∧ (OutfitGenerator.generate_outfit clashing_extras_wardrobe "Any" sample_rng).1
    = (Some {| top := Some black_tee; bottom := Some black_jeans; dress := None;
               outerwear := Some red_coat; accessories := [];
               shoes := Some green_boots |}, 1%nat).
Proof.
  split; [by vm_compute|].
  apply (extras_not_checked_against_each_other
           clashing_extras_wardrobe "Any" sample_rng
           black_tee black_jeans red_coat green_boots); by vm_compute.
Defined.

(** ** Substitution: after the replacement *)

Lemma compatible_with_rest_sublist (x : Item) (l1 l2 : list Item) :
  l1 `sublist_of` l2 →
  compatible_with_rest x l2 = true → compatible_with_rest x l1 = true.
Proof.
  rewrite !compatible_with_rest_spec. intros Hsub H j y Hj.
  apply list_elem_of_lookup_2 in Hj.
  eapply elem_of_sublist in Hj; [|exact Hsub].
  apply list_elem_of_lookup_1 in Hj as [k Hk]. by apply (H k).
Qed.

Lemma pairwise_compatible_sublist (l1 l2 : list Item) :
  l1 `sublist_of` l2 →
  pairwise_compatible l2 = true → pairwise_compatible l1 = true.
Proof.
  induction 1 as [|x l1 l2 Hsub IH|x l1 l2 Hsub IH]; simpl; [done| |].
  - destruct (compatible_with_rest x l2) eqn:E2; [|done]. intros H2.
    rewrite (compatible_with_rest_sublist x l1 l2 Hsub E2). by apply IH.
  - destruct (compatible_with_rest x l2); [|done]. apply IH.
Qed.

Lemma sublist_six (a1 a2 b1 b2 c1 c2 d1 d2 e1 e2 f1 f2 : list Item) :
  a1 `sublist_of` a2 → b1 `sublist_of` b2 → c1 `sublist_of` c2 →
  d1 `sublist_of` d2 → e1 `sublist_of` e2 → f1 `sublist_of` f2 →
  a1 ++ b1 ++ c1 ++ d1 ++ e1 ++ f1 `sublist_of` a2 ++ b2 ++ c2 ++ d2 ++ e2 ++ f2.
Proof. intros. by repeat apply sublist_app. Qed.

Lemma apply_selection_sublist (slot : Slot) (item : Item) (o : Outfit) :
  proposed_outfit_items (apply_selection slot item o)
  `sublist_of` hypothetical_set o slot item.
Proof.
  unfold proposed_outfit_items, hypothetical_set, apply_selection.
  destruct slot; cbn [bool_decide decide_rel]; cbn -[app option_list];
    try destruct (bool_decide (is_Some (dress o)));
    cbn -[app option_list];
    apply sublist_six; first [reflexivity | apply sublist_nil_l].
Qed.

(** X15. Once an accepted candidate has been written into the outfit, the
    outfit as a whole is consistent: every pair of its items has non-clashing
    colors and formalities within 1, and it passes the pattern rule. *)
Theorem accepted_replacement_leaves_consistent_outfit (generated : Outfit)
    (slot : Slot) (level : Z) (item : Item) :
  is_compatible generated slot level item = true →
  all_pairs_compatible (proposed_outfit_items (apply_selection slot item generated))
  ∧ _do_patterns_match
      (Some <$> proposed_outfit_items (apply_selection slot item generated)) = true.
Proof.
  rewrite is_compatible_unfold, !andb_true_iff. intros [[_ Hpairs] Hpat].
  pose proof (apply_selection_sublist slot item generated) as Hsub. split.
  - apply pairwise_compatible_spec.
    by eapply pairwise_compatible_sublist.
  - eapply patterns_match_submseteq; [|exact Hpat].
    by apply sublist_submseteq, fmap_sublist.
Qed.

Lemma accepted_replacement_leaves_consistent_outfit_witness :
  all_pairs_compatible
    (proposed_outfit_items (apply_selection SlotDress black_dress tee_and_jeans))
  ∧ _do_patterns_match
      (Some <$> proposed_outfit_items
                  (apply_selection SlotDress black_dress tee_and_jeans)) = true.
Proof.
  apply (accepted_replacement_leaves_consistent_outfit
           tee_and_jeans SlotDress 0 black_dress).
  by vm_compute.
Defined.

(** X16. Replacing the top (or the bottom) of an outfit built on a dress
    removes the dress and fills only that one slot: the outfit is left with a
    top and no bottom (or a bottom and no top), so it has neither a dress nor
    a complete top and bottom pair. *)
Theorem replacement_on_dress_leaves_half_torso (item : Item) (o : Outfit) :
  is_Some (dress o) → top o = None → bottom o = None →
  (top (apply_selection SlotTop item o) = Some item
   ∧ bottom (apply_selection SlotTop item o) = None
   ∧ dress (apply_selection SlotTop item o) = None)
  ∧ (bottom (apply_selection SlotBottom item o) = Some item
     ∧ top (apply_selection SlotBottom item o) = None
     ∧ dress (apply_selection SlotBottom item o) = None).
Proof.
  intros Hd Ht Hb. unfold apply_selection. simpl.
  rewrite (bool_decide_eq_true_2 _ Hd). simpl. done.
Qed.

Lemma replacement_on_dress_leaves_half_torso_witness :
  is_compatible dress_only SlotTop 0 black_tee = true
  ∧ (top (apply_selection SlotTop black_tee dress_only) = Some black_tee
     ∧ bottom (apply_selection SlotTop black_tee dress_only) = None
     ∧ dress (apply_selection SlotTop black_tee dress_only) = None).
Proof.
  split; [by vm_compute|].
  apply (proj1 (replacement_on_dress_leaves_half_torso black_tee dress_only
                  ltac:(by eexists) eq_refl eq_refl)).
Defined.

(** X17. A replacement fills its slot with the chosen item alone (for the
    accessories slot the previous accessories are all dropped) and touches no
    other slot, except for the torso: writing a dress empties top and bottom,
    and writing a top or a bottom empties the dress. *)
Theorem replacement_changes_only_its_slot (slot : Slot) (item : Item) (o : Outfit) :
  slot_items slot (apply_selection slot item o) = [item]
  ∧ (∀ other : Slot,
       other ≠ slot →
       slot_items other (apply_selection slot item o)
       = if bool_decide (slot = SlotDress ∧ (other = SlotTop ∨ other = SlotBottom))
            || bool_decide ((slot = SlotTop ∨ slot = SlotBottom) ∧ other = SlotDress)
         then []
         else slot_items other o).
Proof.
  split; [apply slot_items_apply_selection|].
  intros other Hne. unfold apply_selection.
  destruct slot, other; try done; simpl;
    destruct (dress o) as [d|] eqn:Ed; simpl; try done;
    rewrite ?Ed; simpl; done.
Qed.

Lemma replacement_changes_only_its_slot_witness :
  slot_items SlotShoes (apply_selection SlotAccessories white_scarf sample_outfit)
  = slot_items SlotShoes sample_outfit.
Proof.
  apply (proj2 (replacement_changes_only_its_slot
                  SlotAccessories white_scarf sample_outfit) SlotShoes).
  done.
Defined.

(** X18. [select_item] changes nothing when there is no outfit on display,
    when no row is focused, or when the focused id is not the id of an
    offered item; otherwise it writes the first offered item with that id. *)
Theorem select_item_only_writes_offered (app : App) (slot : Slot) :
  (generated_outfit app = None →
   open_change_item_dialog app slot = None
   ∧ ∀ selected_id, select_item app slot selected_id = app)
  ∧ select_item app slot None = app
  ∧ (∀ (sid : Z) (offered : list Item),
       open_change_item_dialog app slot = Some offered →
       (∀ item, item ∈ offered → item_id item ≠ sid) →
       select_item app slot (Some sid) = app)
  ∧ (∀ (sid : Z) (offered before after : list Item) (item : Item)
       (generated : Outfit),
       generated_outfit app = Some generated →
       open_change_item_dialog app slot = Some offered →
       offered = before ++ item :: after →
       item_id item = sid → (∀ x, x ∈ before → item_id x ≠ sid) →
       select_item app slot (Some sid)
       = set_generated_outfit (apply_selection slot item generated) app).
Proof.
  split; [|split; [|split]].
  - intros Hg. unfold select_item, open_change_item_dialog. by rewrite Hg.
  - unfold select_item. destruct (generated_outfit app); [|done].
    by destruct (open_change_item_dialog app slot).
  - intros sid offered Ho Hnone. unfold select_item. rewrite Ho.
    destruct (generated_outfit app); [|done].
    destruct (list_find _ offered) as [[k item]|] eqn:Ef; [|done].
    apply list_find_Some in Ef as (Hk & Hid & _).
    apply list_elem_of_lookup_2 in Hk. by destruct (Hnone item Hk).
  - intros sid offered before after item generated Hg Ho -> Hid Hbefore.
    unfold select_item. rewrite Hg, Ho.
    assert (list_find (λ x, item_id x = sid) (before ++ item :: after)
            = Some (length before, item)) as ->; [|done].
    apply list_find_Some. split_and!.
    + by rewrite list_lookup_middle.
    + done.
    + intros j y Hj Hlt. rewrite lookup_app_l in Hj by done.
      apply Hbefore. by eapply list_elem_of_lookup_2.
Qed.

Lemma select_item_only_writes_offered_witness :
  select_item sample_app_generated SlotDress (Some 99) = sample_app_generated.
Proof.
  apply (proj1 (proj2 (proj2 (select_item_only_writes_offered
                                sample_app_generated SlotDress)))
           99 [black_dress]).
  - by vm_compute.
  - intros item Hin. apply list_elem_of_singleton in Hin. by subst.
Defined.

(** X19. On a non-empty catalog the "Suggest an Outfit!" handler runs the
    search once for the selected occasion and records its answer: the outfit
    on display becomes the one returned, or none when the search fails,
    whatever was displayed before; catalog and occasion are left alone. *)
Theorem handler_records_search_result (app : App) (r : Rng) :
  clothing_items app ≠ [] →
  let res := (OutfitGenerator.generate_outfit
                (clothing_items app) (occasion_var app) r).1 in
  let app' := (OutfitMakerApp.generate_outfit app r).1.1 in
  generated_outfit app' = res.1
  ∧ (OutfitMakerApp.generate_outfit app r).1.2 = res.2
  ∧ clothing_items app' = clothing_items app
  ∧ occasion_var app' = occasion_var app.
Proof.
  intros Hne. unfold OutfitMakerApp.generate_outfit.
  destruct (clothing_items app) as [|i items] eqn:E; [done|].
  unfold bind. destruct (OutfitGenerator.generate_outfit _ _ r) as [[o n] r'].
  simpl. destruct o; simpl; rewrite ?E; done.
Qed.

Lemma handler_records_search_result_witness :
  generated_outfit
    (OutfitMakerApp.generate_outfit (initial_app sample_wardrobe) sample_rng).1.1
  = Some sample_outfit.
Proof.
  apply (proj1 (handler_records_search_result
                  (initial_app sample_wardrobe) sample_rng ltac:(done))).
Defined.

(** ** Saving and loading outfits *)

Import Persistence.

Lemma all_items_by_id_snoc (items : list Item) (y : Item) :
  all_items_by_id (items ++ [y]) = <[item_id y := y]> (all_items_by_id items).
Proof. unfold all_items_by_id. by rewrite foldl_app. Qed.

Lemma all_items_by_id_lookup_Some (items : list Item) (k : Z) (x : Item) :
  all_items_by_id items !! k = Some x → x ∈ items ∧ item_id x = k.
Proof.
  induction items as [|y items IH] using rev_ind; [done|].
  rewrite all_items_by_id_snoc. intros H.
  apply lookup_insert_Some in H as [[<- <-] | [Hne H]].
  - split; [|done]. apply elem_of_app. right. apply list_elem_of_here.
  - destruct (IH H) as [? ?]. split; [|done]. apply elem_of_app. by left.
Qed.

Lemma all_items_by_id_lookup_None (items : list Item) (k : Z) :
  k ∉ item_id <$> items → all_items_by_id items !! k = None.
Proof.
  intros Hk. destruct (all_items_by_id items !! k) as [x|] eqn:E; [|done].
  apply all_items_by_id_lookup_Some in E as [Hx <-].
  destruct Hk. apply list_elem_of_fmap. eauto.
Qed.

Lemma all_items_by_id_lookup_NoDup (items : list Item) (x : Item) :
  NoDup (item_id <$> items) → x ∈ items →
  all_items_by_id items !! item_id x = Some x.
Proof.
  induction items as [|y items IH] using rev_ind; intros Hnd Hx.
  { by apply elem_of_nil in Hx. }
  rewrite all_items_by_id_snoc. rewrite fmap_app in Hnd.
  apply NoDup_app in Hnd as (Hnd & Hdisj & _).
  apply elem_of_app in Hx as [Hx|Hx].
  - rewrite lookup_insert_ne; [by apply IH|].
    intros Heq. apply (Hdisj (item_id x)).
    + apply list_elem_of_fmap. eauto.
    + rewrite <- Heq. simpl. apply list_elem_of_here.
  - apply list_elem_of_singleton in Hx. subst. apply lookup_insert_eq.
Qed.

Lemma load_accessories_refs (catalog : list Item) (l : list Item) :
  NoDup (item_id <$> catalog) → (∀ x, x ∈ l → x ∈ catalog) →
  load_accessories (all_items_by_id catalog) (item_ref <$> l) = l.
Proof.
  intros Hnd. induction l as [|x l IH]; intros Hin; [done|].
  unfold load_accessories in *. simpl.
  rewrite (all_items_by_id_lookup_NoDup catalog x Hnd)
    by (apply Hin, list_elem_of_here).
  simpl. f_equal. apply IH. intros y Hy. apply Hin. by apply list_elem_of_further.
Qed.

(** X20. Saving an outfit and loading it back, with every item of the outfit
    still in the catalog and the catalog ids distinct, is accepted and gives
    back the same item in every filled slot and the same accessories in the
    same order; the slots that were empty come back as missing keys.  Saving
    the loaded outfit again stores the same data. *)
Theorem save_load_round_trip (catalog : list Item) (o : Outfit) :
  NoDup (item_id <$> catalog) →
  (∀ x, x ∈ proposed_outfit_items o → x ∈ catalog) →
  load_selected_outfit catalog (Some (outfit_to_save (of_outfit o)))
  = Some (drop_empty_keys o)
  ∧ outfit_to_save (drop_empty_keys o) = outfit_to_save (of_outfit o).
Proof.
  intros Hnd Hin. split; [|by destruct o as [[?|] [?|] [?|] [?|] ? [?|]]].
  assert (loaded_outfit (all_items_by_id catalog) (outfit_to_save (of_outfit o))
          = drop_empty_keys o) as Hloaded.
  { assert (∀ v : option Item, (∀ x, v = Some x → x ∈ catalog) →
              load_part (all_items_by_id catalog) (save_part (Some v))
              = Some <$> v) as Hpart.
    { intros [x|] Hx; [|done]. simpl.
      by rewrite (all_items_by_id_lookup_NoDup catalog x Hnd) by eauto. }
    unfold proposed_outfit_items in Hin.
    unfold loaded_outfit, drop_empty_keys. f_equal.
    1-4, 6: apply Hpart; intros x Hx; apply Hin; rewrite Hx, !elem_of_app; simpl;
      rewrite list_elem_of_singleton; tauto.
    change (s_accessories (outfit_to_save (of_outfit o)))
      with (Some (item_ref <$> accessories o)).
    simpl. f_equal. apply load_accessories_refs; [done|].
    intros x Hx. apply Hin. rewrite !elem_of_app. tauto. }
  unfold load_selected_outfit. rewrite Hloaded.
  assert (saved_nonempty (outfit_to_save (of_outfit o)) = true) as ->.
  { apply bool_decide_eq_true. simpl. do 4 right. left. by eexists. }
  simpl.
  assert (is_valid (all_items_by_id catalog) (drop_empty_keys o) = true) as ->;
    [|done].
  assert (∀ x, x ∈ catalog → item_id x ∈ dom (all_items_by_id catalog)) as Hdom.
  { intros x Hx. apply elem_of_dom. exists x.
    by apply all_items_by_id_lookup_NoDup. }
  assert (∀ v : option Item, (∀ x, v = Some x → x ∈ catalog) →
            part_is_dangling (all_items_by_id catalog) (Some <$> v) = false)
    as Hpart.
  { intros [x|] Hx; [|done]. simpl. apply bool_decide_eq_false.
    intros Hn. apply Hn, Hdom. eauto. }
  unfold is_valid, drop_empty_keys. unfold proposed_outfit_items in Hin. simpl.
  rewrite !Hpart.
  - apply forallb_forall. intros x Hx. apply bool_decide_eq_true, Hdom, Hin.
    apply list_elem_of_In in Hx. rewrite !elem_of_app. tauto.
  - intros x Hx. apply Hin. rewrite Hx, !elem_of_app. simpl.
    rewrite list_elem_of_singleton. tauto.
  - intros x Hx. apply Hin. rewrite Hx, !elem_of_app. simpl.
    rewrite list_elem_of_singleton. tauto.
  - intros x Hx. apply Hin. rewrite Hx, !elem_of_app. simpl.
    rewrite list_elem_of_singleton. tauto.
  - intros x Hx. apply Hin. rewrite Hx, !elem_of_app. simpl.
    rewrite list_elem_of_singleton. tauto.
  - intros x Hx. apply Hin. rewrite Hx, !elem_of_app. simpl.
    rewrite list_elem_of_singleton. tauto.
Qed.

Lemma save_load_round_trip_witness :
  load_selected_outfit sample_wardrobe (Some (outfit_to_save (of_outfit sample_outfit)))
  = Some (drop_empty_keys sample_outfit)
  ∧ outfit_to_save (drop_empty_keys sample_outfit)
    = outfit_to_save (of_outfit sample_outfit).
Proof.
  apply (save_load_round_trip sample_wardrobe sample_outfit).
  - apply (bool_decide_unpack _). by vm_compute.
  - apply Forall_forall. apply (bool_decide_unpack _). by vm_compute.
Defined.

Lemma load_part_not_dangling (by_id : gmap Z Item) (v : option ItemRef) :
  (∀ k x, by_id !! k = Some x → item_id x = k) →
  part_is_dangling by_id (load_part by_id v) = false.
Proof.
  intros Hid. destruct v as [ref|]; [|done]. simpl.
  destruct (by_id !! ref_id ref) as [x|] eqn:E; [|done].
  apply bool_decide_eq_false. intros Hn. apply Hn, elem_of_dom.
  rewrite (Hid _ _ E). by eexists.
Qed.

(** X21. [load_selected_outfit] never reports an item that has left the
    wardrobe: the validity test passes on whatever was saved, so any saved
    outfit with at least one key is loaded.  A slot whose item is gone comes
    back holding [None], and accessories that are gone are left out; the
    items that do come back are catalog items with the saved ids. *)
Theorem load_never_reports_missing_items (catalog : list Item) (data : SavedOutfit) :
  let by_id := all_items_by_id catalog in
  is_valid by_id (loaded_outfit by_id data) = true
  ∧ (saved_nonempty data = true →
     load_selected_outfit catalog (Some data) = Some (loaded_outfit by_id data))
  ∧ (∀ ref : ItemRef,
       ref_id ref ∉ item_id <$> catalog →
       load_part by_id (Some ref) = Some None)
  ∧ (∀ refs : list ItemRef,
       load_accessories by_id refs
       = load_accessories by_id
           (filter (λ ref, ref_id ref ∈ item_id <$> catalog) refs))
  ∧ (∀ (ref : ItemRef) (x : Item),
       load_part by_id (Some ref) = Some (Some x) →
       x ∈ catalog ∧ item_id x = ref_id ref).
Proof.
  intros by_id.
  assert (∀ k x, by_id !! k = Some x → item_id x = k) as Hid.
  { intros k x H. by apply all_items_by_id_lookup_Some in H as [_ ?]. }
  assert (is_valid by_id (loaded_outfit by_id data) = true) as Hvalid.
  { unfold is_valid, loaded_outfit. cbn [p_top p_bottom p_dress p_outerwear
      p_shoes p_accessories].
    rewrite !load_part_not_dangling by done.
    apply forallb_forall. intros x Hx. apply list_elem_of_In in Hx.
    destruct (s_accessories data) as [refs|]; simpl in Hx;
      [|by apply elem_of_nil in Hx].
    unfold load_accessories in Hx. apply list_elem_of_omap in Hx as (ref & _ & Hx).
    apply bool_decide_eq_true, elem_of_dom. rewrite (Hid _ _ Hx). by eexists. }
  split; [done|]. split; [|split; [|split]].
  - intros Hne. unfold load_selected_outfit. rewrite Hne. fold by_id.
    by rewrite Hvalid.
  - intros ref Href. simpl. f_equal. by apply all_items_by_id_lookup_None.
  - intros refs. unfold load_accessories.
    induction refs as [|ref refs IH]; [done|].
    rewrite filter_cons. case_decide as Hin.
    + cbn [omap list_omap]. by rewrite IH.
    + cbn [omap list_omap]. unfold by_id at 1.
      by rewrite (all_items_by_id_lookup_None catalog _ Hin).
  - intros ref x [= H]. by apply all_items_by_id_lookup_Some in H.
Qed.

Lemma load_never_reports_missing_items_witness :
  load_selected_outfit sample_wardrobe (Some stale_saved_outfit)
  = Some {| p_top := Some (Some black_tee); p_bottom := Some None;
            p_dress := None; p_outerwear := None;
            p_accessories := Some [white_scarf]; p_shoes := None |}.
Proof.
  rewrite (proj1 (proj2 (load_never_reports_missing_items
                           sample_wardrobe stale_saved_outfit))).
  - by vm_compute.
  - by vm_compute.
Defined.

(** ** The change dialog on a loaded outfit *)

Lemma partial_is_compatible_of_outfit (o : Outfit) (slot : Slot) (level : Z)
    (item : Item) :
  partial_is_compatible (of_outfit o) slot level item
  = Ok (is_compatible o slot level item).
Proof.
  unfold partial_is_compatible, is_compatible.
  destruct (category_matches item slot); [|done].
  destruct (_is_item_suitable_for_occasion item level); [|done].
  cbn [negb].
  assert (partial_proposed_items (partial_outfit_copy (of_outfit o) slot item)
          = Ok (proposed_outfit_items (current_outfit_copy o slot item))) as ->.
  { by destruct slot. }
  cbn [result_bind]. by destruct (pairwise_compatible _).
Qed.

(** X22. On an outfit that has all six keys, as every outfit that comes out
    of [generate_outfit] does, the change dialog raises no [KeyError] and
    offers exactly the catalog items that pass its four tests, in catalog
    order. *)
Theorem change_dialog_total_on_generated_outfit (o : Outfit) (slot : Slot)
    (level : Z) (clothing_items : list Item) :
  partial_compatible_items (of_outfit o) slot level clothing_items
  = Ok (filter (λ item, is_compatible o slot level item = true) clothing_items).
Proof.
  induction clothing_items as [|item rest IH]; [done|].
  cbn [partial_compatible_items]. rewrite partial_is_compatible_of_outfit, IH.
  cbn [result_bind]. rewrite filter_cons.
  destruct (is_compatible o slot level item); by case_decide.
Qed.

(** X23. After an outfit returned by [generate_outfit] has been saved and
    loaded back, its empty slots are missing keys, and the change dialog
    raises [KeyError] on the first catalog item that passes the category and
    occasion tests.  The one exception is the dress slot of an outfit that
    had top, bottom, outerwear and shoes all filled: there every key the
    dialog reads is present. *)
Theorem change_dialog_raises_after_reload (items : list Item)
    (occasion_type : string) (r : Rng) (o : Outfit) (catalog : list Item)
    (slot : Slot) (level : Z) :
  (OutfitGenerator.generate_outfit items occasion_type r).1.1 = Some o →
  let loaded := loaded_outfit (all_items_by_id catalog) (outfit_to_save (of_outfit o)) in
  let all_keys := slot = SlotDress ∧ is_Some (top o) ∧ is_Some (bottom o)
                  ∧ is_Some (outerwear o) ∧ is_Some (shoes o) in
  (∀ item : Item,
     category_matches item slot = true →
     _is_item_suitable_for_occasion item level = true →
     (all_keys → ∃ verdict, partial_is_compatible loaded slot level item = Ok verdict)
     ∧ (¬ all_keys → ∃ key, partial_is_compatible loaded slot level item = KeyError key))
  ∧ (∀ clothing_items : list Item,
       ¬ all_keys →
       (∃ item, item ∈ clothing_items ∧ category_matches item slot = true
                ∧ _is_item_suitable_for_occasion item level = true) →
       ∃ key, partial_compatible_items loaded slot level clothing_items
              = KeyError key).
Proof.
  intros Hgen loaded all_keys.
  apply generate_outfit_returned_ok in Hgen as [Htorso _].
  assert (∀ item : Item,
     category_matches item slot = true →
     _is_item_suitable_for_occasion item level = true →
     (all_keys → ∃ verdict, partial_is_compatible loaded slot level item = Ok verdict)
     ∧ (¬ all_keys → ∃ key, partial_is_compatible loaded slot level item = KeyError key))
    as Hitem.
  { intros item Hcat Hsuit. unfold partial_is_compatible.
    rewrite Hcat, Hsuit. cbn [negb]. subst loaded all_keys.
    destruct o as [t b d ow acc sh]. unfold torso_ok in Htorso. simpl in Htorso.
    destruct Htorso as [([d' ->] & -> & ->) | (-> & t' & b' & -> & -> & _)].
    - split.
      + intros (_ & [? Ht] & _). simpl in Ht. done.
      + intros _. destruct slot, ow, sh; simpl; eauto.
    - split.
      + intros (-> & _ & _ & [ow' Hw] & [sh' Hs]). simpl in Hw, Hs. subst.
        simpl. destruct (pairwise_compatible _); eauto.
      + intros Hnot. destruct slot; simpl; eauto.
        destruct ow as [ow'|], sh as [sh'|]; simpl; eauto.
        destruct Hnot. simpl. split_and!; eauto. }
  split; [exact Hitem|].
  intros clothing_items Hnot (item & Hin & Hcat & Hsuit).
  induction clothing_items as [|x rest IH]; [by apply elem_of_nil in Hin|].
  cbn [partial_compatible_items].
  destruct (decide (category_matches x slot = true
                    ∧ _is_item_suitable_for_occasion x level = true))
    as [[Hc Hs]|Hno].
  - destruct (proj2 (Hitem x Hc Hs) Hnot) as [key ->]. simpl. eauto.
  - assert (partial_is_compatible loaded slot level x = Ok false) as ->.
    { unfold partial_is_compatible.
      destruct (category_matches x slot); [|done].
      destruct (_is_item_suitable_for_occasion x level); [|done].
      destruct Hno. done. }
    cbn [result_bind].
    apply elem_of_cons in Hin as [->|Hin]; [by destruct Hno|].
    destruct (IH Hin) as [key ->]. simpl. eauto.
Qed.

Lemma change_dialog_raises_after_reload_witness :
  ∃ key,
    partial_compatible_items
      (loaded_outfit (all_items_by_id sample_wardrobe)
         (outfit_to_save (of_outfit sample_outfit)))
      SlotShoes 0 sample_wardrobe
    = KeyError key.
Proof.
  apply (proj2 (change_dialog_raises_after_reload
                  sample_wardrobe "Any" sample_rng sample_outfit sample_wardrobe
                  SlotShoes 0 ltac:(by vm_compute))).
  - intros [? _]. done.
  - exists grey_boots. split; [|by vm_compute].
    apply (bool_decide_unpack _). by vm_compute.
Defined.

(** ** Substitution: the rest of the outfit *)

Lemma do_colors_clash_sym (a b : string) : _do_colors_clash a b = _do_colors_clash b a.
Proof.
  unfold _do_colors_clash. rewrite !do_colors_clash_with_unfold.
  rewrite (orb_comm (bool_decide (a = ""))).
  rewrite (orb_comm (bool_decide (lower a ∈ neutral_colors))).
  by rewrite (orb_comm (listed_clash clashing_colors (lower a) (lower b))).
Qed.

Lemma do_formalities_match_sym (x y : Item) :
  _do_formalities_match (Some x) (Some y) 1 = _do_formalities_match (Some y) (Some x) 1.
Proof. unfold _do_formalities_match. f_equal. lia. Qed.

Lemma compatible_with_rest_Forall (x : Item) (l : list Item) :
  compatible_with_rest x l = true
  ↔ Forall (λ y, _do_colors_clash (color x) (color y) = false
                 ∧ _do_formalities_match (Some x) (Some y) 1 = true) l.
Proof.
  rewrite compatible_with_rest_spec, Forall_lookup. done.
Qed.

Lemma pairwise_compatible_Permutation_1 (l1 l2 : list Item) :
  l1 ≡ₚ l2 → pairwise_compatible l1 = true → pairwise_compatible l2 = true.
Proof.
  induction 1 as [|x l1 l2 Hp IH|x y l|l1 l2 l3 _ IH1 _ IH2]; simpl.
  - done.
  - destruct (compatible_with_rest x l1) eqn:E1; [|done]. intros H.
    apply compatible_with_rest_Forall in E1. rewrite Hp in E1.
    apply compatible_with_rest_Forall in E1. rewrite E1. by apply IH.
  - rewrite (do_colors_clash_sym (color x) (color y)).
    rewrite (do_formalities_match_sym x y).
    destruct (_do_colors_clash (color y) (color x)); [done|].
    destruct (_do_formalities_match (Some y) (Some x) 1); [|done]. simpl.
    destruct (compatible_with_rest y l), (compatible_with_rest x l); done.
  - intros H. by apply IH2, IH1.
Qed.

Lemma hypothetical_set_Permutation (o : Outfit) (slot : Slot) (item : Item) :
  hypothetical_set o slot item ≡ₚ item :: proposed_outfit_items (clear_slot slot o).
Proof.
  unfold hypothetical_set, proposed_outfit_items, clear_slot.
  destruct slot; simpl; solve_Permutation.
Qed.

Lemma accepted_rest_is_consistent (o : Outfit) (slot : Slot) (level : Z)
    (item : Item) :
  is_compatible o slot level item = true →
  pairwise_compatible (proposed_outfit_items (clear_slot slot o)) = true.
Proof.
  rewrite is_compatible_unfold, !andb_true_iff. intros [[_ Hpairs] _].
  apply (pairwise_compatible_Permutation_1 _ _
           (hypothetical_set_Permutation o slot item)) in Hpairs.
  simpl in Hpairs. by destruct (compatible_with_rest item _).
Qed.

(** X24. A candidate is accepted only if it goes with every item that stays
    in the outfit, and only if those items already go with one another:
    colors not clashing and formalities within 1 for every pair, at most one
    patterned item.  When two items of the other slots conflict, nothing is
    offered for this slot. *)
Theorem accepted_candidate_goes_with_rest (o : Outfit) (slot : Slot) (level : Z)
    (item : Item) :
  is_compatible o slot level item = true →
  (∀ x, x ∈ proposed_outfit_items (clear_slot slot o) →
     _do_colors_clash (color item) (color x) = false
     ∧ _do_formalities_match (Some item) (Some x) 1 = true)
  ∧ all_pairs_compatible (proposed_outfit_items (clear_slot slot o))
  ∧ _do_patterns_match (Some <$> proposed_outfit_items (clear_slot slot o)) = true.
Proof.
  rewrite is_compatible_unfold, !andb_true_iff. intros [[_ Hpairs] Hpat].
  pose proof (hypothetical_set_Permutation o slot item) as Hperm.
  apply (pairwise_compatible_Permutation_1 _ _ Hperm) in Hpairs.
  simpl in Hpairs.
  destruct (compatible_with_rest item _) eqn:Erest; [|done].
  split; [|split].
  - apply compatible_with_rest_Forall in Erest.
    intros x Hx. by apply (proj1 (Forall_forall _ _) Erest).
  - by apply pairwise_compatible_spec.
  - eapply patterns_match_submseteq; [|exact Hpat].
    rewrite Hperm, fmap_cons. by apply submseteq_cons.
Qed.

Lemma accepted_candidate_goes_with_rest_witness :
  (∀ x, x ∈ proposed_outfit_items (clear_slot SlotShoes tee_and_jeans) →
     _do_colors_clash (color grey_boots) (color x) = false
     ∧ _do_formalities_match (Some grey_boots) (Some x) 1 = true)
  ∧ all_pairs_compatible (proposed_outfit_items (clear_slot SlotShoes tee_and_jeans))
  ∧ _do_patterns_match
      (Some <$> proposed_outfit_items (clear_slot SlotShoes tee_and_jeans)) = true.
Proof.
  apply (accepted_candidate_goes_with_rest tee_and_jeans SlotShoes 0 grey_boots).
  by vm_compute.
Defined.

(** On the outfit whose coat and boots clash, no top is ever accepted. *)
Example nothing_offered_when_rest_conflicts (level : Z) (item : Item) :
  is_compatible clashing_extras_outfit SlotTop level item = false.
Proof.
  destruct (is_compatible clashing_extras_outfit SlotTop level item) eqn:E; [|done].
  apply accepted_rest_is_consistent in E. by vm_compute in E.
Qed.

(** ** The random helper *)

(** X25. [_get_random_element] returns [None] on the empty list, without
    drawing; on a non-empty list it returns one of its elements, and every
    element can come out. *)
Theorem get_random_element_spec {A} (arr : list A) :
  (∀ r : Rng, arr = [] → _get_random_element arr r = (None, r))
  ∧ (∀ r : Rng, arr ≠ [] → ∃ a, (_get_random_element arr r).1 = Some a ∧ a ∈ arr)
  ∧ (∀ (i : nat) (a : A), arr !! i = Some a →
       ∃ r : Rng, (_get_random_element arr r).1 = Some a).
Proof.
  split; [|split].
  - by intros r ->.
  - intros r Hne. pose proof (get_random_element_post arr r) as H.
    destruct (_get_random_element arr r).1 as [a|]; [by exists a|done].
  - intros i a Hi. exists (λ _, i).
    destruct arr as [|a0 arr]; [done|]. set (l := a0 :: arr) in *.
    change ((_get_random_element l (λ _, i)).1) with (l !! (i `mod` length l)%nat).
    apply lookup_lt_Some in Hi as Hlt. by rewrite Nat.mod_small.
Qed.

Lemma get_random_element_spec_witness :
  ∃ r : Rng, (_get_random_element sample_wardrobe r).1 = Some red_gown.
Proof.
  apply (proj2 (proj2 (get_random_element_spec sample_wardrobe)) 2%nat red_gown).
  reflexivity.
Defined.

(** * The change dialog on any outfit dictionary *)

(** ** The validator *)

Lemma held_option_list (v : option Item) : held (Some v) = option_list v.
Proof. by destruct v. Qed.

Lemma partial_proposed_items_present (p : PartialOutfit) (slot : Slot) (item : Item) :
  other_keys_present p slot →
  partial_proposed_items (partial_outfit_copy p slot item)
  = Ok (partial_hypothetical_set p slot item).
Proof.
  unfold other_keys_present, partial_hypothetical_set.
  destruct p as [t b d ow acc sh].
  cbn [p_top p_bottom p_dress p_outerwear p_accessories p_shoes].
  intros (Ht & Hb & Hd & Ho & Hs & Ha).
  destruct slot;
    repeat match goal with
           | H : ?s = ?s' ∨ is_Some ?v |- _ =>
               destruct H as [H|[? ->]]; [try discriminate H|]
           end;
    cbn; rewrite <- ?held_option_list; reflexivity.
Qed.

Lemma partial_proposed_items_missing (p : PartialOutfit) (slot : Slot) (item : Item) :
  ¬ other_keys_present p slot →
  ∃ key, partial_proposed_items (partial_outfit_copy p slot item) = KeyError key.
Proof.
  unfold other_keys_present. destruct p as [t b d ow acc sh].
  cbn [p_top p_bottom p_dress p_outerwear p_accessories p_shoes].
  intros Hnot.
  destruct t as [t|], b as [b|], d as [d|], ow as [ow|], acc as [acc|],
           sh as [sh|], slot; cbn; eauto;
    exfalso; apply Hnot; split_and!; first [by left | by right].
Qed.

Lemma partial_is_compatible_accepts (p : PartialOutfit) (slot : Slot) (level : Z)
    (item : Item) :
  partial_is_compatible p slot level item = Ok true
  ↔ category_matches item slot = true
    ∧ other_keys_present p slot
    ∧ _is_item_suitable_for_occasion item level = true
    ∧ pairwise_compatible (partial_hypothetical_set p slot item) = true
    ∧ _do_patterns_match (Some <$> partial_hypothetical_set p slot item) = true.
Proof.
  unfold partial_is_compatible.
  destruct (category_matches item slot); cbn [negb];
    [|split; [done|by intros (? & _)]].
  destruct (_is_item_suitable_for_occasion item level); cbn [negb];
    [|split; [done|by intros (_ & _ & ? & _)]].
  destruct (decide (other_keys_present p slot)) as [Hk|Hk].
  - rewrite (partial_proposed_items_present p slot item Hk). cbn [result_bind].
    destruct (pairwise_compatible _); cbn [negb].
    + split; [intros [= ->]; done|by intros (_ & _ & _ & _ & ->)].
    + split; [done|by intros (_ & _ & _ & ? & _)].
  - destruct (partial_proposed_items_missing p slot item Hk) as [key ->].
    cbn [result_bind]. split; [done|by intros (_ & ? & _)].
Qed.

Lemma partial_is_compatible_mismatch (p : PartialOutfit) (slot : Slot) (level : Z)
    (item : Item) :
  category_matches item slot = false →
  partial_is_compatible p slot level item = Ok false.
Proof. intros H. unfold partial_is_compatible. by rewrite H. Qed.

Lemma partial_compatible_items_offered (p : PartialOutfit) (slot : Slot) (level : Z)
    (clothing_items offered : list Item) :
  partial_compatible_items p slot level clothing_items = Ok offered →
  ∀ item, item ∈ offered
          ↔ item ∈ clothing_items ∧ partial_is_compatible p slot level item = Ok true.
Proof.
  revert offered. induction clothing_items as [|x rest IH]; intros offered.
  - intros [= <-] item. rewrite elem_of_nil. tauto.
  - cbn [partial_compatible_items].
    destruct (partial_is_compatible p slot level x) as [verdict|key] eqn:Ex;
      [|done].
    cbn [result_bind].
    destruct (partial_compatible_items p slot level rest) as [l|key] eqn:Erest;
      [|done].
    cbn [result_bind]. intros [= <-] item. specialize (IH l eq_refl item).
    destruct verdict; rewrite ?elem_of_cons, IH; split.
    + intros [->|[? ?]]; [split; [by left|done]|split; [by right|done]].
    + intros [[->|?] ?]; [by left|by right].
    + intros [? ?]. split; [by right|done].
    + intros [[->|?] ?]; [congruence|done].
Qed.

(** C3, as stated, fails: with the black tee and the striped jeans on, the
    grey boots offered for the top slot pass the three checks (any occasion;
    neutral colors, both casual; one patterned item) and are still rejected,
    because their category is not the slot's. *)
Lemma boots_pass_checks_but_rejected_as_top :
  three_checks_pass tee_and_jeans SlotTop 0 grey_boots
  ∧ is_compatible tee_and_jeans SlotTop 0 grey_boots = false
  ∧ partial_is_compatible (of_outfit tee_and_jeans) SlotTop 0 grey_boots = Ok false.
Proof.
  split; [|split; by vm_compute].
  split; [by vm_compute|]. split; [|by vm_compute].
  apply pairwise_compatible_spec. by vm_compute.
Qed.

(** The equivalence needs the keys: on the sample outfit saved and loaded
    back, which lacks the keys of its empty slots, the grey boots have the
    category of the shoes slot and pass the three checks on the hypothetical
    item set, and the dialog raises [KeyError] on the missing key ["dress"]
    instead of accepting them. *)
Example reloaded_boots_pass_checks_but_raise :
  lower (category grey_boots) = slot_name SlotShoes
  ∧ _is_item_suitable_for_occasion grey_boots 0 = true
  ∧ all_pairs_compatible
      (partial_hypothetical_set reloaded_sample_outfit SlotShoes grey_boots)
  ∧ _do_patterns_match
      (Some <$> partial_hypothetical_set reloaded_sample_outfit SlotShoes grey_boots)
    = true
  ∧ partial_is_compatible reloaded_sample_outfit SlotShoes 0 grey_boots
    = KeyError "dress".
Proof.
  split; [by vm_compute|]. split; [by vm_compute|].
  split; [apply pairwise_compatible_spec; by vm_compute|].
  split; by vm_compute.
Qed.

(** On a dictionary with the keys the dialog reads, the validator never
    raises. *)
Lemma partial_is_compatible_total (p : PartialOutfit) (slot : Slot) (level : Z)
    (item : Item) :
  other_keys_present p slot →
  ∃ verdict, partial_is_compatible p slot level item = Ok verdict.
Proof.
  intros Hk. unfold partial_is_compatible.
  destruct (category_matches item slot); cbn [negb]; [|by eexists].
  destruct (_is_item_suitable_for_occasion item level); cbn [negb]; [|by eexists].
  rewrite (partial_proposed_items_present p slot item Hk). cbn [result_bind].
  destruct (pairwise_compatible _); cbn [negb]; by eexists.
Qed.

(** C3, amended. On an outfit that holds every key the dialog reads besides
    the targeted slot's, the validator gives a verdict, and it accepts a
    candidate for a slot if and only if the candidate's category is the
    slot's (lower-cased category equal to the slot name, or "accessory" for
    the accessories slot) and the three checks pass on the hypothetical item
    set: the candidate suits the selected occasion level, every unordered
    pair of the set has non-clashing colors and formalities within tolerance
    1, and the set passes the pattern rule.  An outfit with all six keys, as
    [generate_outfit] builds them, is such an outfit for every slot.  The
    list the dialog offers holds exactly the catalog items the validator
    accepts. *)
Theorem replacement_accepted_iff :
  (∀ (generated : PartialOutfit) (slot : Slot) (level : Z) (item : Item),
     other_keys_present generated slot →
     (∃ verdict, partial_is_compatible generated slot level item = Ok verdict)
     ∧ (partial_is_compatible generated slot level item = Ok true
        ↔ (lower (category item) = slot_name slot
           ∨ (slot = SlotAccessories ∧ lower (category item) = "accessory"))
          ∧ _is_item_suitable_for_occasion item level = true
          ∧ all_pairs_compatible (partial_hypothetical_set generated slot item)
          ∧ _do_patterns_match
              (Some <$> partial_hypothetical_set generated slot item) = true))
  ∧ (∀ (o : Outfit) (slot : Slot) (level : Z) (item : Item),
       other_keys_present (of_outfit o) slot
       ∧ partial_hypothetical_set (of_outfit o) slot item
         = hypothetical_set o slot item
       ∧ (partial_is_compatible (of_outfit o) slot level item = Ok true
          ↔ (lower (category item) = slot_name slot
             ∨ (slot = SlotAccessories ∧ lower (category item) = "accessory"))
            ∧ three_checks_pass o slot level item))
  ∧ (∀ (generated : PartialOutfit) (slot : Slot) (level : Z)
       (clothing_items offered : list Item),
       partial_compatible_items generated slot level clothing_items = Ok offered →
       ∀ item, item ∈ offered
               ↔ item ∈ clothing_items
                 ∧ partial_is_compatible generated slot level item = Ok true).
Proof.
  split; [|split].
  - intros generated slot level item Hkeys.
    split; [by apply partial_is_compatible_total|].
    rewrite partial_is_compatible_accepts, category_matches_spec,
      pairwise_compatible_spec. tauto.
  - intros o slot level item.
    assert (other_keys_present (of_outfit o) slot) as Hkeys.
    { unfold other_keys_present. simpl. split_and!; right; by eexists. }
    split; [done|]. split.
    + by destruct o as [[?|] [?|] [?|] [?|] ? [?|]].
    + rewrite partial_is_compatible_of_outfit.
      split; [intros [= H]; by apply is_compatible_iff|].
      intros H. f_equal. by apply is_compatible_iff.
  - apply partial_compatible_items_offered.
Qed.

Lemma replacement_accepted_iff_witness :
  partial_is_compatible (of_outfit tee_and_jeans) SlotShoes 0 grey_boots = Ok true.
Proof.
  apply (proj1 replacement_accepted_iff (of_outfit tee_and_jeans) SlotShoes 0
           grey_boots).
  - apply (bool_decide_unpack _). by vm_compute.
  - split; [left; reflexivity|].
    split; [by vm_compute|]. split; [|by vm_compute].
    apply pairwise_compatible_spec. by vm_compute.
Defined.

(** ** The category of a replacement *)

(** C10, as stated, fails: the accessories slot does not accept items of
    category "Accessory" only.  A category spelled like the slot name passes
    the first test of the dialog, so an item of category "Accessories" is
    accepted for the accessories slot. *)
Lemma plural_category_accepted_for_accessories :
  category plural_bangle = "Accessories"
  ∧ lower (category plural_bangle) ≠ "accessory"
  ∧ is_compatible tee_and_jeans SlotAccessories 0 plural_bangle = true
  ∧ partial_is_compatible (of_outfit tee_and_jeans) SlotAccessories 0 plural_bangle
    = Ok true
  ∧ open_change_item_dialog
      {| clothing_items := [black_tee; black_jeans; plural_bangle];
         occasion_var := "Any"; generated_outfit := Some tee_and_jeans |}
      SlotAccessories
    = Some [plural_bangle].
Proof. split_and!; by vm_compute. Qed.

(** C10, amended. A candidate whose category does not match the targeted
    slot is never accepted, and it is turned down before anything else is
    looked at: whatever the outfit dictionary holds, no key is read and no
    other check is made.  Matching means that the category, lower-cased, is
    the slot name, or is "accessory" when the slot is the accessories slot
    (which therefore takes the categories "accessory" and "accessories", in
    any letter case).  Every item the dialog offers, and the item
    [select_item] writes into the outfit, matches in this sense; for an item
    of one of the six wardrobe categories this means its category is exactly
    the slot's ("Accessory" for accessories). *)
Theorem replacement_category_matches_slot :
  (∀ (item : Item) (slot : Slot),
     category_matches item slot = true
     ↔ lower (category item) = slot_name slot
       ∨ (slot = SlotAccessories ∧ lower (category item) = "accessory"))
  ∧ (∀ (generated : PartialOutfit) (slot : Slot) (level : Z) (item : Item),
       ¬ (lower (category item) = slot_name slot
          ∨ (slot = SlotAccessories ∧ lower (category item) = "accessory")) →
       partial_is_compatible generated slot level item = Ok false)
  ∧ (∀ (generated : Outfit) (slot : Slot) (level : Z) (item : Item),
       ¬ (lower (category item) = slot_name slot
          ∨ (slot = SlotAccessories ∧ lower (category item) = "accessory")) →
       is_compatible generated slot level item = false)
  ∧ (∀ (generated : PartialOutfit) (slot : Slot) (level : Z)
       (clothing_items offered : list Item) (item : Item),
       partial_compatible_items generated slot level clothing_items = Ok offered →
       item ∈ offered →
       (lower (category item) = slot_name slot
        ∨ (slot = SlotAccessories ∧ lower (category item) = "accessory"))
       ∧ (category item ∈ known_categories → category item = slot_category slot))
  ∧ (∀ (app : App) (slot : Slot) (offered : list Item) (item : Item),
       open_change_item_dialog app slot = Some offered → item ∈ offered →
       (lower (category item) = slot_name slot
        ∨ (slot = SlotAccessories ∧ lower (category item) = "accessory"))
       ∧ (category item ∈ known_categories → category item = slot_category slot))
  ∧ (∀ (app : App) (slot : Slot) (sid : Z) (generated : Outfit)
       (offered before after : list Item) (item : Item),
       generated_outfit app = Some generated →
       open_change_item_dialog app slot = Some offered →
       offered = before ++ item :: after →
       item_id item = sid → (∀ x, x ∈ before → item_id x ≠ sid) →
       generated_outfit (select_item app slot (Some sid))
       = Some (apply_selection slot item generated)
       ∧ slot_items slot (apply_selection slot item generated) = [item]
       ∧ (lower (category item) = slot_name slot
          ∨ (slot = SlotAccessories ∧ lower (category item) = "accessory"))
       ∧ (category item ∈ known_categories → category item = slot_category slot))
  ∧ (∀ (app : App) (slot : Slot) (selected_id : option Z) (generated : Outfit),
       generated_outfit app = Some generated →
       select_item app slot selected_id = app
       ∨ ∃ item,
           generated_outfit (select_item app slot selected_id)
           = Some (apply_selection slot item generated)
           ∧ slot_items slot (apply_selection slot item generated) = [item]
           ∧ (lower (category item) = slot_name slot
              ∨ (slot = SlotAccessories ∧ lower (category item) = "accessory"))
           ∧ (category item ∈ known_categories →
              category item = slot_category slot)).
Proof.
  assert (∀ (item : Item) (slot : Slot),
     category_matches item slot = true →
     (lower (category item) = slot_name slot
      ∨ (slot = SlotAccessories ∧ lower (category item) = "accessory"))
     ∧ (category item ∈ known_categories → category item = slot_category slot))
    as Hmatch.
  { intros item slot Hcat. split; [by apply category_matches_spec|].
    intros Hk. by apply category_matches_known. }
  assert (∀ (item : Item) (slot : Slot),
     ¬ (lower (category item) = slot_name slot
        ∨ (slot = SlotAccessories ∧ lower (category item) = "accessory")) →
     category_matches item slot = false) as Hmismatch.
  { intros item slot Hnot. destruct (category_matches item slot) eqn:E; [|done].
    by apply category_matches_spec in E. }
  assert (∀ (app : App) (slot : Slot) (offered : list Item) (item : Item),
       open_change_item_dialog app slot = Some offered → item ∈ offered →
       (lower (category item) = slot_name slot
        ∨ (slot = SlotAccessories ∧ lower (category item) = "accessory"))
       ∧ (category item ∈ known_categories → category item = slot_category slot))
    as Hoffered.
  { intros app slot offered item Ho Hin.
    destruct (offered_is_compatible app slot offered item Ho Hin)
      as (generated & _ & Hc).
    rewrite is_compatible_unfold, !andb_true_iff in Hc.
    destruct Hc as [[[Hcat _] _] _]. by apply Hmatch. }
  split_and!.
  - apply category_matches_spec.
  - intros generated slot level item Hnot.
    by apply partial_is_compatible_mismatch, Hmismatch.
  - intros generated slot level item Hnot.
    rewrite is_compatible_unfold, (Hmismatch item slot Hnot). done.
  - intros generated slot level clothing_items offered item Ho Hin.
    apply (partial_compatible_items_offered _ _ _ _ _ Ho) in Hin as [_ Hin].
    apply partial_is_compatible_accepts in Hin as (Hcat & _). by apply Hmatch.
  - exact Hoffered.
  - intros app slot sid generated offered before after item Hg Ho Hoff Hid Hbefore.
    rewrite (select_item_writes_first_offered app slot sid generated offered
               before after item Hg Ho Hoff Hid Hbefore).
    split; [done|]. split; [apply slot_items_apply_selection|].
    apply (Hoffered app slot offered item Ho). subst offered.
    apply elem_of_app. right. apply list_elem_of_here.
  - intros app slot selected_id generated Hg.
    destruct (select_item_applies_offered app slot selected_id generated Hg)
      as [H|(offered & item & Ho & Hin & Hsel)]; [by left|].
    right. exists item. rewrite Hsel. split; [done|].
    split; [apply slot_items_apply_selection|]. by eapply Hoffered.
Qed.

Lemma replacement_category_matches_slot_witness :
  partial_is_compatible reloaded_sample_outfit SlotTop 0 grey_boots = Ok false
  ∧ is_compatible tee_and_jeans SlotTop 0 grey_boots = false.
Proof.
  split.
  - apply (proj1 (proj2 replacement_category_matches_slot)
             reloaded_sample_outfit SlotTop 0 grey_boots).
    intros [H|[H _]]; discriminate H.
  - apply (proj1 (proj2 (proj2 replacement_category_matches_slot))
             tee_and_jeans SlotTop 0 grey_boots).
    intros [H|[H _]]; discriminate H.
Defined.
